(** * Vault Transform relay for BigQuery remote functions

    A shallow embedding of [src/main.py] (the Flask application) and of
    [src/deploy/cloud-function/main.py] (the Cloud Function variant), and
    the properties of the relay stated over it.

    Python values that reach the handlers all come out of a JSON parser,
    so one type, [json], stands for them.  The Vault server and the
    network are a state-passing oracle [requests_post]; Python exceptions
    are an explicit [Raise] outcome, so that "never raises" and "answers
    500" are statements about the code and not about the model. *)

From Stdlib Require Import ZArith String Ascii List Bool Lia DecimalString.
From stdpp Require Import gmap strings.
Import ListNotations.

Set Warnings "-register-all".

Local Open Scope string_scope.
Local Open Scope Z_scope.
Local Open Scope list_scope.

(** ** Values *)

(** A parsed JSON document, as [json.loads] builds it.  [JNull] is Python's
    [None].  An integer literal is an [int]; any other number is a [float],
    which is named here by its [repr] (the program looks at a float only
    through its truth value and its [str]).  A string is a sequence of
    characters with code points below 256.  An object is a [dict]: its
    entries in insertion order, keys distinct. *)
Inductive json : Type :=
| JNull
| JBool (b : bool)
| JInt (z : Z)
| JFloat (r : string)
| JStr (s : string)
| JArr (xs : list json)
| JObj (kvs : list (string * json)).

(** Exceptions the modelled code can meet; every one of them is a subclass
    of [Exception]. *)
Inductive exn : Type :=
| TypeError
| KeyError
| IndexError
| AttributeError
| ValueError
| BadRequest
| RequestException
| JSONDecodeError
| RecursionError.

Inductive result (A : Type) : Type :=
| Ok (a : A)
| Raise (e : exn).
Arguments Ok {A} a.
Arguments Raise {A} e.

(** ** Python operations on values *)

(** [bool(v)], the test behind [not v] and [if v]. *)
Definition truthy (v : json) : bool :=
  match v with
  | JNull => false
  | JBool b => b
  | JInt z => negb (z =? 0)
  | JFloat r => negb (String.eqb r "0.0" || String.eqb r "-0.0")
  | JStr s => negb (String.eqb s "")
  | JArr xs => match xs with [] => false | _ :: _ => true end
  | JObj kvs => match kvs with [] => false | _ :: _ => true end
  end.

(** [needle in hay] on two strings. *)
Fixpoint str_contains (needle hay : string) : bool :=
  String.prefix needle hay
  || match hay with
     | EmptyString => false
     | String _ rest => str_contains needle rest
     end.

(** Lookup of a key in a [dict]. *)
Fixpoint dict_lookup (kvs : list (string * json)) (key : string) : option json :=
  match kvs with
  | [] => None
  | (k, v) :: rest => if String.eqb k key then Some v else dict_lookup rest key
  end.

Definition is_JStr (s : string) (v : json) : bool :=
  match v with
  | JStr s' => String.eqb s s'
  | _ => false
  end.

(** [key in container] for a string [key]. *)
Definition py_in (key : string) (container : json) : result bool :=
  match container with
  | JObj kvs => Ok (match dict_lookup kvs key with Some _ => true | None => false end)
  | JArr xs => Ok (existsb (is_JStr key) xs)
  | JStr s => Ok (str_contains key s)
  | _ => Raise TypeError
  end.

(** [container[key]] for a string [key]. *)
Definition py_getitem_str (container : json) (key : string) : result json :=
  match container with
  | JObj kvs => match dict_lookup kvs key with
                | Some v => Ok v
                | None => Raise KeyError
                end
  | _ => Raise TypeError
  end.

(** [container[0]].  A [dict] parsed from JSON has string keys only, so the
    integer key is never found. *)
Definition py_getitem_0 (container : json) : result json :=
  match container with
  | JArr xs => match xs with
               | x :: _ => Ok x
               | [] => Raise IndexError
               end
  | JStr s => match s with
              | String c _ => Ok (JStr (String c EmptyString))
              | EmptyString => Raise IndexError
              end
  | JObj _ => Raise KeyError
  | _ => Raise TypeError
  end.

(** [len(v)]. *)
Definition py_len (v : json) : result Z :=
  match v with
  | JArr xs => Ok (Z.of_nat (List.length xs))
  | JStr s => Ok (Z.of_nat (String.length s))
  | JObj kvs => Ok (Z.of_nat (List.length kvs))
  | _ => Raise TypeError
  end.

Fixpoint chars (s : string) : list json :=
  match s with
  | EmptyString => []
  | String c rest => JStr (String c EmptyString) :: chars rest
  end.

(** The items a [for] loop sees in [v]. *)
Definition py_iter (v : json) : result (list json) :=
  match v with
  | JArr xs => Ok xs
  | JStr s => Ok (chars s)
  | JObj kvs => Ok (List.map (fun kv => JStr (fst kv)) kvs)
  | _ => Raise TypeError
  end.

(** [obj.get(key, default)]: only a [dict] has the method. *)
Definition py_get (obj : json) (key : string) (default : json) : result json :=
  match obj with
  | JObj kvs => Ok (match dict_lookup kvs key with
                    | Some v => v
                    | None => default
                    end)
  | _ => Raise AttributeError
  end.

(** *** [str] and [repr] *)

Definition int_repr (z : Z) : string := NilZero.string_of_int (Z.to_int z).

Definition hex_digit (n : nat) : ascii :=
  match n with
  | 0 => "0" | 1 => "1" | 2 => "2" | 3 => "3" | 4 => "4" | 5 => "5"
  | 6 => "6" | 7 => "7" | 8 => "8" | 9 => "9" | 10 => "a" | 11 => "b"
  | 12 => "c" | 13 => "d" | 14 => "e" | _ => "f"
  end%nat%char.

Definition is_printable (c : ascii) : bool :=
  let n := nat_of_ascii c in
  ((32 <=? n) && (n <? 127) || (161 <=? n) && negb (n =? 173))%nat.

Definition repr_char (quote c : ascii) : string :=
  let n := nat_of_ascii c in
  if Ascii.eqb c quote || Ascii.eqb c "\"%char then String "\" (String c EmptyString)
  else if (n =? 9)%nat then "\t"
  else if (n =? 10)%nat then "\n"
  else if (n =? 13)%nat then "\r"
  else if is_printable c then String c EmptyString
  else String "\" (String "x" (String (hex_digit (n / 16)) (String (hex_digit (n mod 16)) EmptyString))).

Definition dquote : ascii := ascii_of_nat 34.

Fixpoint has_char (c : ascii) (s : string) : bool :=
  match s with
  | EmptyString => false
  | String c' rest => Ascii.eqb c c' || has_char c rest
  end.

Fixpoint repr_chars (quote : ascii) (s : string) : string :=
  match s with
  | EmptyString => EmptyString
  | String c rest => repr_char quote c +:+ repr_chars quote rest
  end.

(** [repr] of a string: single quotes, unless the string has a single quote
    and no double quote. *)
Definition str_repr (s : string) : string :=
  let quote := if has_char "'" s && negb (has_char dquote s) then dquote else "'"%char in
  String quote (repr_chars quote s +:+ String quote EmptyString).

Fixpoint join (sep : string) (parts : list string) : string :=
  match parts with
  | [] => EmptyString
  | [p] => p
  | p :: rest => p +:+ sep +:+ join sep rest
  end.

Fixpoint py_repr (v : json) : string :=
  match v with
  | JNull => "None"
  | JBool b => if b then "True" else "False"
  | JInt z => int_repr z
  | JFloat r => r
  | JStr s => str_repr s
  | JArr xs => "[" +:+ join ", " (List.map py_repr xs) +:+ "]"
  | JObj kvs =>
      "{" +:+ join ", " (List.map (fun kv => match kv with
                                         | (k, x) => str_repr k +:+ ": " +:+ py_repr x
                                         end) kvs) +:+ "}"
  end.

(** [str(v)]. *)
Definition py_str (v : json) : string :=
  match v with
  | JStr s => s
  | _ => py_repr v
  end.

(** ** Effects *)

(** A computation over the state of the outside world (the Vault server and
    the network between): it ends with a value or with a raised exception,
    and leaves a world behind either way. *)
Definition M (World A : Type) : Type := World -> result A * World.

Definition ret {World A} (a : A) : M World A := fun w => (Ok a, w).

Definition raise {World A} (e : exn) : M World A := fun w => (Raise e, w).

Definition bind {World A B} (m : M World A) (k : A -> M World B) : M World B :=
  fun w => match m w with
           | (Ok a, w') => k a w'
           | (Raise e, w') => (Raise e, w')
           end.

(** A pure operation that may raise. *)
Definition lift {World A} (r : result A) : M World A := fun w => (r, w).

(** [try: body / except Exception as e: handler]. *)
Definition try_except {World A} (body : M World A) (handler : exn -> M World A) : M World A :=
  fun w => match body w with
           | (Ok a, w') => (Ok a, w')
           | (Raise e, w') => handler e w'
           end.

Declare Scope py_scope.
Delimit Scope py_scope with py.
Notation "x <- m ;; k" := (bind m (fun x => k))
  (at level 100, m at next level, right associativity) : py_scope.
Local Open Scope py_scope.

(** ** The Vault client *)

Record VaultTransformClient : Type := {
  vault_url : string;
  vault_token : string;
  vault_namespace : string;
  transform_role : string
}.

(** [VaultTransformClient.__init__] over [os.environ].  The variable that
    holds the server address is [VAULT_URL] in the Flask application and
    [VAULT_ADDR] in the Cloud Function; nothing else differs. *)
Definition VaultTransformClient_init (url_var : string) (environ : gmap string string)
  : result VaultTransformClient :=
  let url := default "https://vault.example.com" (environ !! url_var) in
  let token := environ !! "VAULT_TOKEN" in
  let namespace := default "" (environ !! "VAULT_NAMESPACE") in
  let role := default "creditcard-transform" (environ !! "VAULT_TRANSFORM_ROLE") in
  match token with
  | None => Raise ValueError
  | Some t =>
      if String.eqb t "" then Raise ValueError
      else Ok {| vault_url := url; vault_token := t;
                 vault_namespace := namespace; transform_role := role |}
  end.

Definition _get_headers (self : VaultTransformClient) : list (string * string) :=
  let headers := [("X-Vault-Token", vault_token self);
                  ("Content-Type", "application/json")] in
  if negb (String.eqb (vault_namespace self) "")
  then headers ++ [("X-Vault-Namespace", vault_namespace self)]
  else headers.

(** The arguments of one [requests.post] call. *)
Record VaultRequest : Type := {
  url : string;
  headers : list (string * string);
  payload : json;
  timeout : Z
}.

(** What [requests.post] hands back: the status code and the body as
    [response.json()] reads it ([None] when the body does not parse, in
    which case the method raises). *)
Record Response : Type := {
  status_code : Z;
  json_body : option json
}.

Definition response_json (response : Response) : result json :=
  match json_body response with
  | Some j => Ok j
  | None => Raise JSONDecodeError
  end.

Section Relay.

Context {World : Type}.

(** [requests.post(url, headers=..., json=..., timeout=...)]: the Vault
    server and the network.  It answers with a response or raises
    (connection refused, timeout, ...), and may change the world. *)
Variable requests_post : VaultRequest -> M World Response.

(** [VaultTransformClient.encrypt].  The result is the Python value the
    method returns, [JNull] for [None].  The [logger.error] calls write
    to the log only and are left out. *)
Definition encrypt (self : VaultTransformClient) (plaintext : string) : M World json :=
  try_except
    (let url := vault_url self +:+ "/v1/transform/encode/" +:+ transform_role self in
     let payload := JObj [("value", JStr plaintext)] in
     response <- requests_post {| url := url; headers := _get_headers self;
                                  payload := payload; timeout := 30 |};;
     if status_code response =? 200 then
       result <- lift (response_json response);;
       data <- lift (py_get result "data" (JObj []));;
       lift (py_get data "encoded_value" JNull)
     else ret JNull)
    (fun _ => ret JNull).

(** [VaultTransformClient.decrypt]. *)
Definition decrypt (self : VaultTransformClient) (ciphertext : string) : M World json :=
  try_except
    (let url := vault_url self +:+ "/v1/transform/decode/" +:+ transform_role self in
     let payload := JObj [("value", JStr ciphertext)] in
     response <- requests_post {| url := url; headers := _get_headers self;
                                  payload := payload; timeout := 30 |};;
     if status_code response =? 200 then
       result <- lift (response_json response);;
       data <- lift (py_get result "data" (JObj []));;
       lift (py_get data "decoded_value" JNull)
     else ret JNull)
    (fun _ => ret JNull).

(** ** The handlers *)

(** The request object as the handlers use it: [path] ([None] when the
    object has no such attribute) and the body as the framework's JSON
    loader reads it ([None] when loading fails).  A load fails in one of
    two ways: the loader reports that the body is not JSON (a parse error,
    or a content type that is not JSON), and then [load_error] is [None];
    or the loader itself breaks, as [json.loads] does with
    [RecursionError] on a body nested too deep, and then [load_error] is
    that exception. *)
Record Request : Type := {
  path : option string;
  body : option json;
  load_error : option exn
}.

(** [request.get_json(silent=...)].  When the body is reported not to be
    JSON the framework raises an HTTP error ([BadRequest], a subclass of
    [Exception]), unless [silent], in which case the call returns [None].
    An exception of the loader itself is not a parse error: it comes out
    of the call whatever [silent] is. *)
Definition get_json (silent : bool) (request : Request) : result json :=
  match body request with
  | Some j => Ok j
  | None =>
      match load_error request with
      | Some e => Raise e
      | None => if silent then Ok JNull else Raise BadRequest
      end
  end.

(** A handler's answer: the body and the HTTP status. *)
Definition HttpResponse : Type := json * Z.

Definition error_response (message : string) (status : Z) : HttpResponse :=
  (JObj [("error", JStr message)], status).

End Relay.

(** The three routes. *)
Inductive route : Type := encrypt_route | decrypt_route | health_route.

(** ** [src/main.py]: the Flask application *)

Module FlaskApp.

(** The module-level statement [vault_client = VaultTransformClient()]:
    importing the module raises when the constructor does, and then no
    application object and no route exist. *)
Definition load (environ : gmap string string) : result VaultTransformClient :=
  VaultTransformClient_init "VAULT_URL" environ.

Section Routes.

Context {World : Type}.
Variable requests_post : VaultRequest -> M World Response.
Variable vault_client : VaultTransformClient.

(** The handlers call [request.get_json()], which raises on a body that
    does not load. *)
(** The [for call in calls] loop of [encrypt_credit_card]; [replies] is the
    list built so far. *)
Fixpoint encrypt_calls (calls : list json) (replies : list json) : M World (list json) :=
  match calls with
  | [] => ret replies
  | call :: rest =>
      skip <- (if negb (truthy call) then ret true
               else (n <- lift (py_len call);; ret (n =? 0)));;
      if (skip : bool) then encrypt_calls rest (replies ++ [JNull])
      else
        credit_card_number <- lift (py_getitem_0 call);;
        if negb (truthy credit_card_number) then encrypt_calls rest (replies ++ [JNull])
        else
          encrypted_value <- encrypt requests_post vault_client (py_str credit_card_number);;
          encrypt_calls rest (replies ++ [encrypted_value])
  end.

Definition encrypt_credit_card (request : Request) : M World HttpResponse :=
  try_except
    (request_data <- lift (get_json false request);;
     invalid <- (if negb (truthy request_data) then ret true
                 else (present <- lift (py_in "calls" request_data);;
                       ret (negb present)));;
     if (invalid : bool) then ret (error_response "Invalid request format" 400)
     else
       calls <- lift (py_getitem_str request_data "calls");;
       items <- lift (py_iter calls);;
       replies <- encrypt_calls items [];;
       ret (JObj [("replies", JArr replies)], 200))
    (fun _ => ret (error_response "Internal server error" 500)).

(** The [for call in calls] loop of [decrypt_credit_card]. *)
Fixpoint decrypt_calls (calls : list json) (replies : list json) : M World (list json) :=
  match calls with
  | [] => ret replies
  | call :: rest =>
      skip <- (if negb (truthy call) then ret true
               else (n <- lift (py_len call);; ret (n =? 0)));;
      if (skip : bool) then decrypt_calls rest (replies ++ [JNull])
      else
        encrypted_value <- lift (py_getitem_0 call);;
        if negb (truthy encrypted_value) then decrypt_calls rest (replies ++ [JNull])
        else
          decrypted_value <- decrypt requests_post vault_client (py_str encrypted_value);;
          decrypt_calls rest (replies ++ [decrypted_value])
  end.

Definition decrypt_credit_card (request : Request) : M World HttpResponse :=
  try_except
    (request_data <- lift (get_json false request);;
     invalid <- (if negb (truthy request_data) then ret true
                 else (present <- lift (py_in "calls" request_data);;
                       ret (negb present)));;
     if (invalid : bool) then ret (error_response "Invalid request format" 400)
     else
       calls <- lift (py_getitem_str request_data "calls");;
       items <- lift (py_iter calls);;
       replies <- decrypt_calls items [];;
       ret (JObj [("replies", JArr replies)], 200))
    (fun _ => ret (error_response "Internal server error" 500)).

Definition health_check : M World HttpResponse :=
  ret (JObj [("status", JStr "healthy")], 200).

End Routes.

(** The module as a whole: the client is built first, and the routes exist
    only if that did not raise. *)
Definition main {World : Type} (requests_post : VaultRequest -> M World Response)
           (environ : gmap string string)
  : result (route -> Request -> M World HttpResponse) :=
  match load environ with
  | Ok vault_client =>
      Ok (fun r => match r with
                   | encrypt_route => encrypt_credit_card requests_post vault_client
                   | decrypt_route => decrypt_credit_card requests_post vault_client
                   | health_route => fun _ => health_check
                   end)
  | Raise e => Raise e
  end.

End FlaskApp.

(** ** [src/deploy/cloud-function/main.py]: the Cloud Function *)

Module CloudFunction.

Definition load (environ : gmap string string) : result VaultTransformClient :=
  VaultTransformClient_init "VAULT_ADDR" environ.

Section Routes.

Context {World : Type}.
Variable requests_post : VaultRequest -> M World Response.
Variable vault_client : VaultTransformClient.

(** The handlers call [request.get_json(silent=True)]. *)
(** The [for call in calls] loop of [encrypt_credit_card]; [replies] is the
    list built so far. *)
Fixpoint encrypt_calls (calls : list json) (replies : list json) : M World (list json) :=
  match calls with
  | [] => ret replies
  | call :: rest =>
      skip <- (if negb (truthy call) then ret true
               else (n <- lift (py_len call);; ret (n =? 0)));;
      if (skip : bool) then encrypt_calls rest (replies ++ [JNull])
      else
        credit_card_number <- lift (py_getitem_0 call);;
        if negb (truthy credit_card_number) then encrypt_calls rest (replies ++ [JNull])
        else
          encrypted_value <- encrypt requests_post vault_client (py_str credit_card_number);;
          encrypt_calls rest (replies ++ [encrypted_value])
  end.

Definition encrypt_credit_card (request : Request) : M World HttpResponse :=
  try_except
    (request_data <- lift (get_json true request);;
     invalid <- (if negb (truthy request_data) then ret true
                 else (present <- lift (py_in "calls" request_data);;
                       ret (negb present)));;
     if (invalid : bool) then ret (error_response "Invalid request format" 400)
     else
       calls <- lift (py_getitem_str request_data "calls");;
       items <- lift (py_iter calls);;
       replies <- encrypt_calls items [];;
       ret (JObj [("replies", JArr replies)], 200))
    (fun _ => ret (error_response "Internal server error" 500)).

(** The [for call in calls] loop of [decrypt_credit_card]. *)
Fixpoint decrypt_calls (calls : list json) (replies : list json) : M World (list json) :=
  match calls with
  | [] => ret replies
  | call :: rest =>
      skip <- (if negb (truthy call) then ret true
               else (n <- lift (py_len call);; ret (n =? 0)));;
      if (skip : bool) then decrypt_calls rest (replies ++ [JNull])
      else
        encrypted_value <- lift (py_getitem_0 call);;
        if negb (truthy encrypted_value) then decrypt_calls rest (replies ++ [JNull])
        else
          decrypted_value <- decrypt requests_post vault_client (py_str encrypted_value);;
          decrypt_calls rest (replies ++ [decrypted_value])
  end.

Definition decrypt_credit_card (request : Request) : M World HttpResponse :=
  try_except
    (request_data <- lift (get_json true request);;
     invalid <- (if negb (truthy request_data) then ret true
                 else (present <- lift (py_in "calls" request_data);;
                       ret (negb present)));;
     if (invalid : bool) then ret (error_response "Invalid request format" 400)
     else
       calls <- lift (py_getitem_str request_data "calls");;
       items <- lift (py_iter calls);;
       replies <- decrypt_calls items [];;
       ret (JObj [("replies", JArr replies)], 200))
    (fun _ => ret (error_response "Internal server error" 500)).

Definition health_check (request : Request) : M World HttpResponse :=
  ret (JObj [("status", JStr "healthy")], 200).

(** The entry point: routing on the request path. *)
Definition vault_transform_bigquery (request : Request) : M World HttpResponse :=
  try_except
    (request_data <- lift (get_json true request);;
     let path := match path request with
                 | Some p => p
                 | None => "/"
                 end in
     if str_contains "/encrypt" path then encrypt_credit_card request
     else if str_contains "/decrypt" path then decrypt_credit_card request
     else if str_contains "/health" path then health_check request
     else encrypt_credit_card request)
    (fun _ => ret (error_response "Internal server error" 500)).

End Routes.

(** The module as a whole: the client is built first, and the entry point
    exists only if that did not raise. *)
Definition main {World : Type} (requests_post : VaultRequest -> M World Response)
           (environ : gmap string string)
  : result (Request -> M World HttpResponse) :=
  match load environ with
  | Ok vault_client => Ok (vault_transform_bigquery requests_post vault_client)
  | Raise e => Raise e
  end.

End CloudFunction.

(** The four batch handlers under one name, for the statements that hold
    of each of them. *)
Inductive deployment : Type := Flask | Cloud.
Inductive operation : Type := Encode | Decode.

Definition handler {World : Type} (requests_post : VaultRequest -> M World Response)
           (vault_client : VaultTransformClient) (d : deployment) (op : operation)
  : Request -> M World HttpResponse :=
  match d, op with
  | Flask, Encode => FlaskApp.encrypt_credit_card requests_post vault_client
  | Flask, Decode => FlaskApp.decrypt_credit_card requests_post vault_client
  | Cloud, Encode => CloudFunction.encrypt_credit_card requests_post vault_client
  | Cloud, Decode => CloudFunction.decrypt_credit_card requests_post vault_client
  end.

(** The loop of each of them. *)
Definition handler_loop {World : Type} (requests_post : VaultRequest -> M World Response)
           (vault_client : VaultTransformClient) (d : deployment) (op : operation)
  : list json -> list json -> M World (list json) :=
  match d, op with
  | Flask, Encode => FlaskApp.encrypt_calls requests_post vault_client
  | Flask, Decode => FlaskApp.decrypt_calls requests_post vault_client
  | Cloud, Encode => CloudFunction.encrypt_calls requests_post vault_client
  | Cloud, Decode => CloudFunction.decrypt_calls requests_post vault_client
  end.

(** The client method behind each operation. *)
Definition client_method {World : Type} (requests_post : VaultRequest -> M World Response)
           (vault_client : VaultTransformClient) (op : operation) : string -> M World json :=
  match op with
  | Encode => encrypt requests_post vault_client
  | Decode => decrypt requests_post vault_client
  end.

(** ** Vocabulary of the statements *)

(** The shape the four handlers share.  Their loops differ only in the
    client method they call, and their bodies only in that method and in
    the [silent] argument of [get_json]; [relay_calls] and
    [remote_function] are that loop and that body with the two as
    parameters. *)
Fixpoint relay_calls {World : Type} (method : string -> M World json)
         (calls : list json) (replies : list json) : M World (list json) :=
  match calls with
  | [] => ret replies
  | call :: rest =>
      skip <- (if negb (truthy call) then ret true
               else (n <- lift (py_len call);; ret (n =? 0)));;
      if (skip : bool) then relay_calls method rest (replies ++ [JNull])
      else
        value <- lift (py_getitem_0 call);;
        if negb (truthy value) then relay_calls method rest (replies ++ [JNull])
        else
          transformed <- method (py_str value);;
          relay_calls method rest (replies ++ [transformed])
  end.

Definition remote_function {World : Type} (silent : bool) (method : string -> M World json)
           (request : Request) : M World HttpResponse :=
  try_except
    (request_data <- lift (get_json silent request);;
     invalid <- (if negb (truthy request_data) then ret true
                 else (present <- lift (py_in "calls" request_data);;
                       ret (negb present)));;
     if (invalid : bool) then ret (error_response "Invalid request format" 400)
     else
       calls <- lift (py_getitem_str request_data "calls");;
       items <- lift (py_iter calls);;
       replies <- relay_calls method items [];;
       ret (JObj [("replies", JArr replies)], 200))
    (fun _ => ret (error_response "Internal server error" 500)).

(** The request a client method sends for the string [s]. *)
Definition transform_request (self : VaultTransformClient) (op : operation) (s : string)
  : VaultRequest :=
  match op with
  | Encode => {| url := vault_url self +:+ "/v1/transform/encode/" +:+ transform_role self;
                 headers := _get_headers self;
                 payload := JObj [("value", JStr s)]; timeout := 30 |}
  | Decode => {| url := vault_url self +:+ "/v1/transform/decode/" +:+ transform_role self;
                 headers := _get_headers self;
                 payload := JObj [("value", JStr s)]; timeout := 30 |}
  end.

(** The field of the answer each operation reads. *)
Definition result_field (op : operation) : string :=
  match op with
  | Encode => "encoded_value"
  | Decode => "decoded_value"
  end.

(** The Transform Client's contract in the words of the specification:
    on status 200 with [{"data": {field: v}}] the result is [v]; a missing
    field, a missing or ill-shaped [data], a body that does not parse, any
    other status and a raised error are failures, reported as [None]. *)
Definition contract_result (field : string) (outcome : result Response) : json :=
  match outcome with
  | Raise _ => JNull
  | Ok response =>
      if status_code response =? 200 then
        match json_body response with
        | Some (JObj kvs) =>
            match dict_lookup kvs "data" with
            | Some (JObj data) =>
                match dict_lookup data field with
                | Some v => v
                | None => JNull
                end
            | Some _ => JNull
            | None => JNull
            end
        | Some _ => JNull
        | None => JNull
        end
      else JNull
  end.

(** A response that carries [v] in the field [field] of its [data]. *)
Definition carries (field : string) (v : json) (response : Response) : Prop :=
  status_code response = 200 /\
  exists kvs data, json_body response = Some (JObj kvs) /\
                   dict_lookup kvs "data" = Some (JObj data) /\
                   dict_lookup data field = Some v.

(** Null, a boolean or a number: a value that can neither be iterated over
    nor searched with [in]. *)
Definition scalar (v : json) : bool :=
  match v with
  | JNull | JBool _ | JInt _ | JFloat _ => true
  | JStr _ | JArr _ | JObj _ => false
  end.

(** The argument of a call: the value of [call[0]] for a non-empty list or
    string. *)
Definition first_argument (call : json) : option json :=
  match call with
  | JArr (x :: _) => Some x
  | JStr (String c _) => Some (JStr (String c EmptyString))
  | _ => None
  end.

(** The entries the loop can process: the falsy ones, lists and strings.
    A number other than zero, [true] and a non-empty object are not. *)
Definition well_formed_call (call : json) : bool :=
  negb (truthy call)
  || match call with
     | JArr _ | JStr _ => true
     | _ => false
     end.

(** The Batch Adapter's contract for one entry: the absent marker for an
    empty, missing or falsy input, else the client's result for it. *)
Definition expected_reply {World : Type} (method : string -> M World json)
           (call : json) : M World json :=
  match first_argument call with
  | Some x => if truthy x then method (py_str x) else ret JNull
  | None => ret JNull
  end.

(** [answered method w calls replies w']: [replies] are the expected
    replies to [calls], one for one and in order, the calls being served
    one after the other from the world [w], which ends as [w']. *)
Inductive answered {World : Type} (method : string -> M World json)
  : World -> list json -> list json -> World -> Prop :=
| answered_nil w : answered method w [] [] w
| answered_cons w call reply w1 calls replies w2 :
    expected_reply method call w = (Ok reply, w1) ->
    answered method w1 calls replies w2 ->
    answered method w (call :: calls) (reply :: replies) w2.

(** An entry that is an empty list, missing, or a list whose single element
    is falsy. *)
Inductive absent_call : json -> Prop :=
| absent_empty : absent_call (JArr [])
| absent_missing : absent_call JNull
| absent_falsy x : truthy x = false -> absent_call (JArr [x]).

(** The loop body on its own: the reply it appends for [call]. *)
Definition relay_call {World : Type} (method : string -> M World json)
           (call : json) : M World json :=
  skip <- (if negb (truthy call) then ret true
           else (n <- lift (py_len call);; ret (n =? 0)));;
  if (skip : bool) then ret JNull
  else
    value <- lift (py_getitem_0 call);;
    if negb (truthy value) then ret JNull
    else method (py_str value).

(** A computation that ends with a value from every world. *)
Definition never_raises {World A : Type} (m : M World A) : Prop :=
  forall w, exists a w', m w = (Ok a, w').

(** The [silent] argument each file gives to [get_json]. *)
Definition silent_of (d : deployment) : bool :=
  match d with
  | Flask => false
  | Cloud => true
  end.

(** The two answers that carry an error object. *)
Definition invalid_request : HttpResponse := error_response "Invalid request format" 400.
Definition internal_error : HttpResponse := error_response "Internal server error" 500.

(** The answer that carries a list of replies. *)
Definition replies_response (replies : list json) : HttpResponse :=
  (JObj [("replies", JArr replies)], 200).

(** [request.path if hasattr(request, 'path') else '/']. *)
Definition request_path (request : Request) : string :=
  match path request with
  | Some p => p
  | None => "/"
  end.

(** A request whose body parsed to [j]. *)
Definition json_request (path : option string) (j : json) : Request :=
  {| path := path; body := Some j; load_error := None |}.

(** ** Stub backends *)

(** The value posted in [{"value": ...}]. *)
Definition posted_value (request : VaultRequest) : string :=
  match payload request with
  | JObj [(_, JStr s)] => s
  | _ => EmptyString
  end.

Fixpoint drop_last (s : string) : string :=
  match s with
  | EmptyString => EmptyString
  | String c EmptyString => EmptyString
  | String c rest => String c (drop_last rest)
  end.

Definition ENC (x : string) : string := "ENC(" +:+ x +:+ ")".

Definition DEC (y : string) : string :=
  match y with
  | String _ (String _ (String _ (String _ rest))) => drop_last rest
  | _ => EmptyString
  end.

Definition data_response (field value : string) : Response :=
  {| status_code := 200;
     json_body := Some (JObj [("data", JObj [(field, JStr value)])]) |}.

(** A Vault that encodes [X] as [ENC(X)], decodes by taking the wrapping
    off, and keeps the list of the requests it has served. *)
Definition stub_post (request : VaultRequest) : M (list VaultRequest) Response :=
  fun served =>
    let x := posted_value request in
    if str_contains "/v1/transform/encode/" (url request)
    then (Ok (data_response "encoded_value" (ENC x)), served ++ [request])
    else (Ok (data_response "decoded_value" (DEC x)), served ++ [request]).

(** The same, except that the value [BAD] is refused with status 500. *)
Definition flaky_post (request : VaultRequest) : M (list VaultRequest) Response :=
  fun served =>
    if String.eqb (posted_value request) "BAD"
    then (Ok {| status_code := 500; json_body := None |}, served ++ [request])
    else stub_post request served.

(** A Vault that cannot be reached: every call raises. *)
Definition unreachable_post (request : VaultRequest) : M (list VaultRequest) Response :=
  fun attempts => (Raise RequestException, attempts ++ [request]).

Definition test_environ : gmap string string :=
  {[ "VAULT_URL" := "https://test-vault.com";
     "VAULT_ADDR" := "https://test-vault.com";
     "VAULT_TOKEN" := "test-token";
     "VAULT_NAMESPACE" := "test-namespace";
     "VAULT_TRANSFORM_ROLE" := "test-role" ]}.

Definition test_client : VaultTransformClient :=
  {| vault_url := "https://test-vault.com"; vault_token := "test-token";
     vault_namespace := "test-namespace"; transform_role := "test-role" |}.

(** The envelope BigQuery sends around [calls]. *)
Definition envelope (calls : list json) : list (string * json) :=
  [("requestId", JStr "test-123");
   ("caller", JStr "//bigquery.googleapis.com/projects/test/jobs/test");
   ("sessionUser", JStr "test@example.com");
   ("calls", JArr calls)].

(** A batch with a good value, a refused one, a missing entry and a string
    in the place of a list. *)
Definition mixed_calls : list json :=
  [JArr [JStr "4111111111111111"]; JArr [JStr "BAD"]; JNull; JStr "42"].

Definition mixed_request : Request :=
  json_request (Some "/encrypt") (JObj (envelope mixed_calls)).

(** ** The callers: the query scripts and the Cloud Function test script *)

(** [requests.post(url, json=payload)] as the scripts use it: the address
    posted to and the JSON sent. *)
Definition HttpPost (World : Type) : Type := string -> json -> M World Response.

Definition CLOUD_FUNCTION_URL : string := "http://localhost:8080".

(** [src/scripts/interactive_query.py]. *)
Module InteractiveQuery.

Section Script.

Context {World : Type}.
Variable requests_post : HttpPost World.

(** [encrypt_credit_card(card_number)].  The [print] calls are left out;
    [found] is the value of the [return] inside the two [if]s, when it is
    reached. *)
Definition encrypt_credit_card (card_number : string) : M World json :=
  try_except
    (let payload := JObj [("requestId", JStr "interactive-query");
                          ("calls", JArr [JArr [JStr card_number]])] in
     response <- requests_post CLOUD_FUNCTION_URL payload;;
     found <- (if status_code response =? 200 then
                 result <- lift (response_json response);;
                 present <- lift (py_in "replies" result);;
                 if (present : bool) then
                   replies <- lift (py_getitem_str result "replies");;
                   n <- lift (py_len replies);;
                   if 0 <? n then (first <- lift (py_getitem_0 replies);; ret (Some first))
                   else ret None
                 else ret None
               else ret None);;
     match found with
     | Some value => ret value
     | None => ret JNull
     end)
    (fun _ => ret JNull).

End Script.

End InteractiveQuery.

(** [src/scripts/query_encrypted_data.py]. *)
Module QueryEncryptedData.

Section Script.

Context {World : Type}.
Variable requests_post : HttpPost World.

(** [encrypt_credit_card(card_number)]: the same function but for the
    request id. *)
Definition encrypt_credit_card (card_number : string) : M World json :=
  try_except
    (let payload := JObj [("requestId", JStr "encrypt-query");
                          ("calls", JArr [JArr [JStr card_number]])] in
     response <- requests_post CLOUD_FUNCTION_URL payload;;
     found <- (if status_code response =? 200 then
                 result <- lift (response_json response);;
                 present <- lift (py_in "replies" result);;
                 if (present : bool) then
                   replies <- lift (py_getitem_str result "replies");;
                   n <- lift (py_len replies);;
                   if 0 <? n then (first <- lift (py_getitem_0 replies);; ret (Some first))
                   else ret None
                 else ret None
               else ret None);;
     match found with
     | Some value => ret value
     | None => ret JNull
     end)
    (fun _ => ret JNull).

End Script.

End QueryEncryptedData.

(** [src/test-cloud-function.py]: the payloads of [test_encrypt_function]
    and [test_decrypt_function], each value wrapped in a list of its own. *)
Module TestCloudFunction.

Definition encrypt_payload (credit_cards : list json) : json :=
  JObj [("requestId", JStr "test-123");
        ("caller", JStr "//bigquery.googleapis.com/projects/test/jobs/test:US.bquxjob_test");
        ("sessionUser", JStr "test-user@test.com");
        ("calls", JArr (List.map (fun cc => JArr [cc]) credit_cards))].

Definition decrypt_payload (encrypted_values : list json) : json :=
  JObj [("requestId", JStr "test-456");
        ("caller", JStr "//bigquery.googleapis.com/projects/test/jobs/test:US.bquxjob_test");
        ("sessionUser", JStr "test-user@test.com");
        ("calls", JArr (List.map (fun enc => JArr [enc]) encrypted_values))].

End TestCloudFunction.

(** The two query scripts under one name. *)
Inductive script : Type := interactive_query | query_encrypted_data.

Definition script_encrypt {World : Type} (requests_post : HttpPost World) (s : script)
  : string -> M World json :=
  match s with
  | interactive_query => InteractiveQuery.encrypt_credit_card requests_post
  | query_encrypted_data => QueryEncryptedData.encrypt_credit_card requests_post
  end.

Definition script_request_id (s : script) : string :=
  match s with
  | interactive_query => "interactive-query"
  | query_encrypted_data => "encrypt-query"
  end.

(** The payload a script posts for a card number. *)
Definition script_payload (s : script) (card_number : string) : json :=
  JObj [("requestId", JStr (script_request_id s));
        ("calls", JArr [JArr [JStr card_number]])].

(** ** Vocabulary of the further statements *)

(** A header of a request, by name. *)
Fixpoint header (name : string) (hs : list (string * string)) : option string :=
  match hs with
  | [] => None
  | (k, v) :: rest => if String.eqb k name then Some v else header name rest
  end.

(** The Vault seen through a recorder: every request made is appended to a
    list kept beside the world. *)
Definition logged {World : Type} (requests_post : VaultRequest -> M World Response)
  : VaultRequest -> M (World * list VaultRequest) Response :=
  fun request state =>
    let (r, w') := requests_post request (fst state) in
    (r, (w', snd state ++ [request])).

(** The strings the loop hands to the client for a batch: one for each
    entry with a truthy first element, up to the first entry the loop
    cannot process. *)
Fixpoint sent_values (calls : list json) : list string :=
  match calls with
  | [] => []
  | call :: rest =>
      if well_formed_call call then
        match first_argument call with
        | Some x => if truthy x then py_str x :: sent_values rest else sent_values rest
        | None => sent_values rest
        end
      else []
  end.

(** An entry cut down to what the loop reads of it: a list to its first
    element, a string to its first character. *)
Definition first_only (call : json) : json :=
  match call with
  | JArr (x :: _) => JArr [x]
  | JStr (String c _) => JArr [JStr (String c EmptyString)]
  | _ => call
  end.

(** The HTTP exchange between a script and a served function, as far as
    the script sees it: posting [payload] to [url] runs [target] on the
    request with path [path] and body [payload], and the response carries
    the status and the body that [target] answered. *)
Definition answers_as {World : Type} (requests_post : HttpPost World) (url path : string)
           (target : Request -> M World HttpResponse) : Prop :=
  forall payload w,
    exists answer status w',
      target {| path := Some path; body := Some payload; load_error := None |} w
      = (Ok (answer, status), w')
      /\ requests_post url payload w
         = (Ok {| status_code := status; json_body := Some answer |}, w').

(** A function served in process: the exchange above, computed. *)
Definition served {World : Type} (path : string) (target : Request -> M World HttpResponse)
  : HttpPost World :=
  fun url payload w =>
    match target {| path := Some path; body := Some payload; load_error := None |} w with
    | (Ok (answer, status), w') =>
        (Ok {| status_code := status; json_body := Some answer |}, w')
    | (Raise e, w') => (Raise e, w')
    end.

(** What a query script makes of the outcome of its request: the first of
    the [replies] of a 200 response, and [None] in every other case. *)
Definition reply_read (outcome : result Response) : json :=
  match outcome with
  | Raise _ => JNull
  | Ok response =>
      if status_code response =? 200 then
        match json_body response with
        | Some (JObj kvs) =>
            match dict_lookup kvs "replies" with
            | Some (JArr (first :: _)) => first
            | Some (JStr (String c _)) => JStr (String c EmptyString)
            | _ => JNull
            end
        | _ => JNull
        end
      else JNull
  end.

(** * Properties *)

(** ** The value operations at work *)

Example truthy_examples :
  List.map truthy [JNull; JBool false; JInt 0; JFloat "0.0"; JFloat "-0.0"; JStr "";
                   JArr []; JObj []; JInt 5; JFloat "nan"; JStr "0"; JArr [JNull]]
  = [false; false; false; false; false; false; false; false; true; true; true; true].
Proof. reflexivity. Qed.

Example py_str_examples :
  py_str (JStr "4111111111111111") = "4111111111111111"
  /\ py_str (JInt (-42)) = "-42"
  /\ py_str (JBool false) = "False"
  /\ py_str (JFloat "1.5") = "1.5"
  /\ py_str (JArr [JStr "a"; JInt 1; JNull]) = "['a', 1, None]"
  /\ py_str (JObj [("k", JArr [])]) = "{'k': []}"
  /\ py_str (JArr [JStr "it's"]) = String "[" (String dquote ("it's" +:+ String dquote "]")).
Proof. repeat split; reflexivity. Qed.

Example py_in_examples :
  py_in "calls" (JObj [("requestId", JStr "r"); ("calls", JArr [])]) = Ok true
  /\ py_in "calls" (JObj [("invalid", JStr "data")]) = Ok false
  /\ py_in "calls" (JArr [JStr "calls"]) = Ok true
  /\ py_in "calls" (JStr "recalls") = Ok true
  /\ py_in "calls" (JInt 5) = Raise TypeError.
Proof. repeat split; reflexivity. Qed.

Example py_getitem_0_examples :
  py_getitem_0 (JArr [JStr "4111111111111111"; JInt 2]) = Ok (JStr "4111111111111111")
  /\ py_getitem_0 (JStr "abc") = Ok (JStr "a")
  /\ py_getitem_0 (JObj [("0", JInt 1)]) = Raise KeyError
  /\ py_len (JInt 5) = Raise TypeError.
Proof. repeat split; reflexivity. Qed.

(** ** The effect combinators *)

Section MonadFacts.

Context {World A B : Type}.

Lemma bind_ok (m : M World A) (k : A -> M World B) w a w' :
  m w = (Ok a, w') -> bind m k w = k a w'.
Proof. intros H. unfold bind. now rewrite H. Qed.

Lemma bind_raise (m : M World A) (k : A -> M World B) w e w' :
  m w = (Raise e, w') -> bind m k w = (Raise e, w').
Proof. intros H. unfold bind. now rewrite H. Qed.

Lemma bind_ret (a : A) (k : A -> M World B) w : bind (ret a) k w = k a w.
Proof. reflexivity. Qed.

Lemma try_except_ok (m : M World A) h w a w' :
  m w = (Ok a, w') -> try_except m h w = (Ok a, w').
Proof. intros H. unfold try_except. now rewrite H. Qed.

Lemma try_except_raise (m : M World A) h w e w' :
  m w = (Raise e, w') -> try_except m h w = h e w'.
Proof. intros H. unfold try_except. now rewrite H. Qed.

End MonadFacts.

Section ClientFacts.

Context {World : Type}.
Variable requests_post : VaultRequest -> M World Response.
Variable self : VaultTransformClient.

Lemma py_get_contract (field : string) (response : Response) (w : World) :
  status_code response = 200 ->
  try_except
    (result <- lift (response_json response);;
     data <- lift (py_get result "data" (JObj []));;
     lift (py_get data field JNull))
    (fun _ => ret JNull) w
  = (Ok (contract_result field (Ok response)), w).
Proof.
  intros Hs. unfold contract_result, response_json. rewrite Hs. simpl.
  unfold try_except, bind, lift, ret.
  destruct (json_body response) as [[ | | | | | | kvs]|]; simpl; try reflexivity.
  destruct (dict_lookup kvs "data") as [[ | | | | | | data]|]; reflexivity.
Qed.

(** Both client methods send one request and answer by the contract. *)
Lemma client_method_contract (op : operation) (s : string) (w : World) :
  client_method requests_post self op s w
  = (Ok (contract_result (result_field op)
                         (fst (requests_post (transform_request self op s) w))),
     snd (requests_post (transform_request self op s) w)).
Proof.
  destruct op; simpl; unfold encrypt, decrypt, try_except, bind;
    simpl;
    match goal with
    | |- context [requests_post ?r w] => destruct (requests_post r w) as [[resp|e] w1]
    end; simpl; try reflexivity;
    destruct (status_code resp =? 200) eqn:Hs; try reflexivity;
    apply Z.eqb_eq in Hs.
  - pose proof (py_get_contract "encoded_value" resp w1 Hs) as H.
    unfold try_except, bind in H. unfold contract_result in *.
    rewrite Hs in *. simpl in *. exact H.
  - pose proof (py_get_contract "decoded_value" resp w1 Hs) as H.
    unfold try_except, bind in H. unfold contract_result in *.
    rewrite Hs in *. simpl in *. exact H.
Qed.

Lemma client_method_never_raises (op : operation) (s : string) :
  never_raises (client_method requests_post self op s).
Proof. intros w. rewrite client_method_contract. eauto. Qed.

End ClientFacts.

(** ** The loop *)

Section LoopFacts.

Context {World : Type}.
Variable method : string -> M World json.

(** One turn of the loop appends the reply of [relay_call]. *)
Lemma relay_calls_cons call rest replies w :
  relay_calls method (call :: rest) replies w
  = bind (relay_call method call)
         (fun reply => relay_calls method rest (replies ++ [reply])) w.
Proof.
  simpl. unfold relay_call, bind, lift, ret.
  destruct (negb (truthy call)); simpl; [reflexivity|].
  destruct (py_len call) as [n|e]; simpl; [|reflexivity].
  destruct (n =? 0); simpl; [reflexivity|].
  destruct (py_getitem_0 call) as [value|e]; simpl; [|reflexivity].
  destruct (negb (truthy value)); simpl; [reflexivity|].
  destruct (method (py_str value) w) as [[r|e] w1]; reflexivity.
Qed.

Lemma relay_call_well_formed call w :
  well_formed_call call = true ->
  relay_call method call w = expected_reply method call w.
Proof.
  unfold well_formed_call, relay_call, expected_reply, bind, lift, ret.
  destruct call as [ | b | z | r | s | xs | kvs]; simpl;
    try (destruct b); try (destruct (z =? 0));
    try (destruct (String.eqb r "0.0" || String.eqb r "-0.0"));
    try (destruct kvs); simpl; try discriminate; try reflexivity; intros _.
  - destruct s as [|c s]; simpl; [reflexivity|].
    destruct (method (String c EmptyString) w) as [[v|e] w1]; reflexivity.
  - destruct xs as [|x xs]; simpl; [reflexivity|].
    destruct (truthy x); simpl; [|reflexivity].
    destruct (method (py_str x) w) as [[v|e] w1]; reflexivity.
Qed.

Lemma relay_call_ill_formed call w :
  well_formed_call call = false ->
  exists e, relay_call method call w = (Raise e, w).
Proof.
  unfold well_formed_call, relay_call, bind, lift, ret.
  destruct call as [ | b | z | r | s | xs | kvs]; simpl;
    try (destruct b); try (destruct (z =? 0));
    try (destruct (String.eqb r "0.0" || String.eqb r "-0.0"));
    try (destruct (String.eqb s ""));
    try (destruct xs); try (destruct kvs);
    simpl; try discriminate; intros _; eauto.
Qed.

(** The replies built so far are a prefix of the result. *)
Lemma relay_calls_acc calls : forall replies w,
  relay_calls method calls replies w
  = bind (relay_calls method calls []) (fun rs => ret (replies ++ rs)) w.
Proof.
  induction calls as [|call rest IH]; intros replies w.
  - simpl. unfold bind, ret. simpl. now rewrite app_nil_r.
  - unfold bind. rewrite !relay_calls_cons. unfold bind.
    destruct (relay_call method call w) as [[r|e] w1]; [|reflexivity].
    rewrite (IH (replies ++ [r])), (IH ([] ++ [r])). unfold bind, ret.
    destruct (relay_calls method rest [] w1) as [[rs|e] w2]; [|reflexivity].
    simpl. now rewrite <- app_assoc.
Qed.

(** A batch is relayed piece by piece. *)
Lemma relay_calls_app calls1 calls2 : forall w,
  relay_calls method (calls1 ++ calls2) [] w
  = bind (relay_calls method calls1 [])
         (fun rs1 => bind (relay_calls method calls2 [])
                          (fun rs2 => ret (rs1 ++ rs2))) w.
Proof.
  induction calls1 as [|call rest IH]; intros w.
  - simpl. unfold bind, ret. simpl.
    destruct (relay_calls method calls2 [] w) as [[rs|e] w1]; reflexivity.
  - change ((call :: rest) ++ calls2) with (call :: (rest ++ calls2)).
    unfold bind. rewrite !relay_calls_cons. unfold bind.
    destruct (relay_call method call w) as [[r|e] w1]; [|reflexivity].
    rewrite (relay_calls_acc (rest ++ calls2)), (relay_calls_acc rest).
    unfold bind. rewrite IH. unfold bind, ret.
    destruct (relay_calls method rest [] w1) as [[rs1|e] w2]; [|reflexivity].
    destruct (relay_calls method calls2 [] w2) as [[rs2|e] w3]; [|reflexivity].
    simpl. reflexivity.
Qed.

Lemma relay_calls_one call w :
  relay_calls method [call] [] w = bind (relay_call method call) (fun r => ret [r]) w.
Proof. rewrite relay_calls_cons. reflexivity. Qed.

(** A batch split around one of its entries. *)
Lemma relay_calls_around before call after w :
  relay_calls method (before ++ call :: after) [] w
  = bind (relay_calls method before [])
         (fun rs1 => bind (relay_call method call)
                          (fun r => bind (relay_calls method after [])
                                         (fun rs2 => ret (rs1 ++ r :: rs2)))) w.
Proof.
  rewrite relay_calls_app. unfold bind.
  destruct (relay_calls method before [] w) as [[rs1|e] w1]; [|reflexivity].
  rewrite relay_calls_cons. unfold bind.
  destruct (relay_call method call w1) as [[r|e] w2]; [|reflexivity].
  rewrite relay_calls_acc. unfold bind, ret.
  destruct (relay_calls method after [] w2) as [[rs2|e] w3]; reflexivity.
Qed.

(** A loop that ends has appended one reply per call. *)
Lemma relay_calls_length calls : forall w replies w',
  relay_calls method calls [] w = (Ok replies, w') ->
  List.length replies = List.length calls.
Proof.
  induction calls as [|call rest IH]; intros w replies w' H.
  - inversion H. reflexivity.
  - rewrite relay_calls_cons in H. unfold bind in H.
    destruct (relay_call method call w) as [[r|e] w1]; [|discriminate].
    rewrite relay_calls_acc in H. unfold bind, ret in H.
    destruct (relay_calls method rest [] w1) as [[rs|e] w2] eqn:E; [|discriminate].
    inversion H. subst. simpl. f_equal. eapply IH. eassumption.
Qed.

Lemma answered_length w calls replies w' :
  answered method w calls replies w' -> List.length replies = List.length calls.
Proof. induction 1; simpl; congruence. Qed.

Hypothesis method_never_raises : forall s, never_raises (method s).

Lemma expected_reply_never_raises call : never_raises (expected_reply method call).
Proof.
  intros w. unfold expected_reply.
  destruct (first_argument call) as [x|]; [|unfold ret; eauto].
  destruct (truthy x); [apply method_never_raises|unfold ret; eauto].
Qed.

(** On well-formed entries the loop ends with the expected replies. *)
Lemma relay_calls_answered calls : forall w,
  forallb well_formed_call calls = true ->
  exists replies w', relay_calls method calls [] w = (Ok replies, w')
                     /\ answered method w calls replies w'.
Proof.
  induction calls as [|call rest IH]; intros w Hwf.
  - exists [], w. split; [reflexivity|constructor].
  - simpl in Hwf. apply andb_true_iff in Hwf as [Hc Hrest].
    destruct (expected_reply_never_raises call w) as (r & w1 & Hr).
    destruct (IH w1 Hrest) as (rs & w2 & Hrs & Hans).
    exists (r :: rs), w2. split.
    + rewrite relay_calls_cons.
      erewrite bind_ok by (rewrite relay_call_well_formed; eassumption).
      rewrite relay_calls_acc. erewrite bind_ok by eassumption. reflexivity.
    + econstructor; eassumption.
Qed.

(** An entry that is not well formed makes the loop raise. *)
Lemma relay_calls_ill_formed calls : forall w,
  forallb well_formed_call calls = false ->
  exists e w', relay_calls method calls [] w = (Raise e, w').
Proof.
  induction calls as [|call rest IH]; intros w Hwf; [discriminate|].
  simpl in Hwf. rewrite relay_calls_cons.
  destruct (well_formed_call call) eqn:Hc; simpl in Hwf.
  - destruct (expected_reply_never_raises call w) as (r & w1 & Hr).
    erewrite bind_ok by (rewrite relay_call_well_formed; eassumption).
    rewrite relay_calls_acc.
    destruct (IH w1 Hwf) as (e & w2 & He).
    erewrite bind_raise by eassumption. eauto.
  - destruct (relay_call_ill_formed call w Hc) as (e & He).
    erewrite bind_raise by eassumption. eauto.
Qed.

End LoopFacts.

(** ** The handlers *)

Section HandlerFacts.

Context {World : Type}.
Variable requests_post : VaultRequest -> M World Response.
Variable vault_client : VaultTransformClient.

Lemma handler_loops calls : forall replies w,
  FlaskApp.encrypt_calls requests_post vault_client calls replies w
  = relay_calls (encrypt requests_post vault_client) calls replies w
  /\ FlaskApp.decrypt_calls requests_post vault_client calls replies w
     = relay_calls (decrypt requests_post vault_client) calls replies w
  /\ CloudFunction.encrypt_calls requests_post vault_client calls replies w
     = relay_calls (encrypt requests_post vault_client) calls replies w
  /\ CloudFunction.decrypt_calls requests_post vault_client calls replies w
     = relay_calls (decrypt requests_post vault_client) calls replies w.
Proof.
  induction calls as [|call rest IH]; intros replies w; [repeat split; reflexivity|].
  simpl. unfold bind, lift, ret.
  destruct (negb (truthy call)); [apply IH|].
  destruct (py_len call) as [n|e]; [|repeat split; reflexivity].
  destruct (n =? 0); [apply IH|].
  destruct (py_getitem_0 call) as [value|e]; [|repeat split; reflexivity].
  destruct (negb (truthy value)); [apply IH|].
  repeat split.
  - destruct (encrypt requests_post vault_client (py_str value) w) as [[r|e] w1];
      [apply IH|reflexivity].
  - destruct (decrypt requests_post vault_client (py_str value) w) as [[r|e] w1];
      [apply IH|reflexivity].
  - destruct (encrypt requests_post vault_client (py_str value) w) as [[r|e] w1];
      [apply IH|reflexivity].
  - destruct (decrypt requests_post vault_client (py_str value) w) as [[r|e] w1];
      [apply IH|reflexivity].
Qed.

Lemma handler_loop_relay_calls d op calls replies w :
  handler_loop requests_post vault_client d op calls replies w
  = relay_calls (client_method requests_post vault_client op) calls replies w.
Proof.
  destruct (handler_loops calls replies w) as (H1 & H2 & H3 & H4).
  destruct d, op; assumption.
Qed.

(** Each handler is the shared body at its own method and [silent]. *)
Lemma handler_remote_function d op request w :
  handler requests_post vault_client d op request w
  = remote_function (silent_of d) (client_method requests_post vault_client op) request w.
Proof.
  destruct d, op; simpl;
    unfold FlaskApp.encrypt_credit_card, FlaskApp.decrypt_credit_card,
      CloudFunction.encrypt_credit_card, CloudFunction.decrypt_credit_card,
      remote_function, try_except, bind, lift, ret;
    match goal with
    | |- context [get_json ?b request] => destruct (get_json b request) as [j|e]
    end; try reflexivity;
    destruct (negb (truthy j)); try reflexivity;
    destruct (py_in "calls" j) as [present|e]; try reflexivity;
    destruct present; simpl; try reflexivity;
    destruct (py_getitem_str j "calls") as [calls|e]; try reflexivity;
    destruct (py_iter calls) as [items|e]; try reflexivity;
    destruct (handler_loops items [] w) as (H1 & H2 & H3 & H4);
    rewrite ?H1, ?H2, ?H3, ?H4; reflexivity.
Qed.

Lemma dict_lookup_nonempty kvs key v :
  dict_lookup kvs key = Some v -> truthy (JObj kvs) = true.
Proof. destruct kvs; [discriminate|reflexivity]. Qed.

(** With a [calls] key in an object body, the handler is the loop over
    the items of its value, under the catch-all. *)
Lemma remote_function_calls silent (method : string -> M World json) request kvs calls w :
  body request = Some (JObj kvs) ->
  dict_lookup kvs "calls" = Some calls ->
  remote_function silent method request w
  = try_except
      (items <- lift (py_iter calls);;
       replies <- relay_calls method items [];;
       ret (replies_response replies))
      (fun _ => ret internal_error) w.
Proof.
  intros Hb Hc. unfold remote_function, get_json. rewrite Hb.
  unfold try_except, bind at 1 2, lift at 1, ret at 1.
  rewrite (dict_lookup_nonempty _ _ _ Hc). simpl. rewrite Hc. simpl.
  unfold bind at 1. simpl. reflexivity.
Qed.

Lemma remote_function_batch silent (method : string -> M World json) request kvs calls w
      replies w' :
  body request = Some (JObj kvs) ->
  dict_lookup kvs "calls" = Some (JArr calls) ->
  relay_calls method calls [] w = (Ok replies, w') ->
  remote_function silent method request w = (Ok (replies_response replies), w').
Proof.
  intros Hb Hc Hr. rewrite (remote_function_calls _ _ _ _ _ _ Hb Hc).
  unfold try_except, bind, lift, ret. simpl. now rewrite Hr.
Qed.

Lemma remote_function_broken_batch silent (method : string -> M World json) request kvs
      calls w e w' :
  body request = Some (JObj kvs) ->
  dict_lookup kvs "calls" = Some (JArr calls) ->
  relay_calls method calls [] w = (Raise e, w') ->
  remote_function silent method request w = (Ok internal_error, w').
Proof.
  intros Hb Hc Hr. rewrite (remote_function_calls _ _ _ _ _ _ Hb Hc).
  unfold try_except, bind, lift, ret. simpl. now rewrite Hr.
Qed.

End HandlerFacts.

(** ** Batches *)

Section BatchProperties.

Context {World : Type}.
Variable requests_post : VaultRequest -> M World Response.
Variable vault_client : VaultTransformClient.

(** C1 (as amended).  For every request body that is an object whose
    [calls] is a list in which each entry is falsy, a list or a string,
    each of the four handlers answers 200 with a [replies] list as long
    as [calls], whose entry at position i is the expected reply to the
    call at position i: null for an empty, missing or falsy input, and
    otherwise what the client method returned for that input, whatever
    the Vault answered or failed to answer to any of the calls. *)
Theorem replies_parallel_to_calls d op request kvs calls w :
  body request = Some (JObj kvs) ->
  dict_lookup kvs "calls" = Some (JArr calls) ->
  forallb well_formed_call calls = true ->
  exists replies w',
    handler requests_post vault_client d op request w
    = (Ok (replies_response replies), w')
    /\ List.length replies = List.length calls
    /\ answered (client_method requests_post vault_client op) w calls replies w'.
Proof.
  intros Hb Hc Hwf.
  destruct (relay_calls_answered (client_method requests_post vault_client op)
              (client_method_never_raises requests_post vault_client op)
              calls w Hwf) as (replies & w' & Hr & Hans).
  exists replies, w'. split; [|split].
  - rewrite handler_remote_function. eapply remote_function_batch; eassumption.
  - eapply answered_length; eassumption.
  - exact Hans.
Qed.

End BatchProperties.

Lemma replies_parallel_to_calls_witness :
  exists replies w',
    handler flaky_post test_client Flask Encode mixed_request []
    = (Ok (replies_response replies), w')
    /\ List.length replies = List.length mixed_calls
    /\ answered (client_method flaky_post test_client Encode) [] mixed_calls replies w'.
Proof.
  apply (replies_parallel_to_calls flaky_post test_client Flask Encode mixed_request
           (envelope mixed_calls) mixed_calls []); reflexivity.
Defined.

(** A [calls] list whose entry is the bare number 4111111111111111, not
    wrapped in a list: [len(call)] raises, the catch-all answers 500, and
    there is no [replies] list at all. *)
Lemma number_entry_gets_no_replies :
  fst (handler stub_post test_client Flask Encode
         (json_request (Some "/encrypt") (JObj [("calls", JArr [JInt 4111111111111111])])) [])
  = Ok (JObj [("error", JStr "Internal server error")], 500)
  /\ fst (handler stub_post test_client Flask Decode
            (json_request (Some "/decrypt") (JObj [("calls", JArr [JInt 4111111111111111])])) [])
     = Ok (JObj [("error", JStr "Internal server error")], 500)
  /\ fst (handler stub_post test_client Cloud Encode
            (json_request (Some "/encrypt") (JObj [("calls", JArr [JInt 4111111111111111])])) [])
     = Ok (JObj [("error", JStr "Internal server error")], 500)
  /\ fst (handler stub_post test_client Cloud Decode
            (json_request (Some "/decrypt") (JObj [("calls", JArr [JInt 4111111111111111])])) [])
     = Ok (JObj [("error", JStr "Internal server error")], 500).
Proof. repeat split; reflexivity. Qed.

Section PartialFailure.

Context {World : Type}.
Variable requests_post : VaultRequest -> M World Response.
Variable vault_client : VaultTransformClient.

Lemma first_argument_relay_call (method : string -> M World json) call x w :
  first_argument call = Some x ->
  truthy x = true ->
  relay_call method call w = method (py_str x) w.
Proof.
  intros Hx Ht. rewrite relay_call_well_formed.
  - unfold expected_reply. now rewrite Hx, Ht.
  - unfold well_formed_call. destruct call as [ | | | | s | xs | ]; try discriminate;
      apply orb_true_r.
Qed.

Lemma answered_relay_calls (method : string -> M World json) w calls replies w' :
  answered method w calls replies w' ->
  forallb well_formed_call calls = true ->
  relay_calls method calls [] w = (Ok replies, w').
Proof.
  induction 1 as [|w0 c r wa cs rs wb Hr _ IH]; intros Hwf; [reflexivity|].
  simpl in Hwf. apply andb_true_iff in Hwf as [Hc Hcs].
  rewrite relay_calls_cons.
  erewrite bind_ok by (rewrite relay_call_well_formed; eassumption).
  rewrite relay_calls_acc. now rewrite (bind_ok _ _ _ _ _ (IH Hcs)).
Qed.

(** C2 (as amended).  In a batch of well-formed entries (each falsy, a
    list or a string), let the Vault answer the
    request for one item with a status other than 200.  Then the handler
    still answers 200; the reply at that item's position is null; the
    replies before it are those of the entries before it, and the replies
    after it those of the entries after it, each as expected for its own
    entry. *)
Theorem failed_item_yields_null d op request kvs before call after x w
        replies1 w1 response w2 :
  body request = Some (JObj kvs) ->
  dict_lookup kvs "calls" = Some (JArr (before ++ call :: after)) ->
  forallb well_formed_call before = true ->
  forallb well_formed_call after = true ->
  first_argument call = Some x ->
  truthy x = true ->
  answered (client_method requests_post vault_client op) w before replies1 w1 ->
  requests_post (transform_request vault_client op (py_str x)) w1 = (Ok response, w2) ->
  status_code response <> 200 ->
  exists replies2 w3,
    answered (client_method requests_post vault_client op) w2 after replies2 w3
    /\ handler requests_post vault_client d op request w
       = (Ok (replies_response (replies1 ++ JNull :: replies2)), w3).
Proof.
  intros Hb Hc Hwf1 Hafter Hx Ht Hbefore Hpost Hstatus.
  set (method := client_method requests_post vault_client op) in *.
  assert (Hnr : forall s, never_raises (method s))
    by apply client_method_never_raises.
  assert (Hrun1 : relay_calls method before [] w = (Ok replies1, w1))
    by (apply answered_relay_calls; assumption).
  destruct (relay_calls_answered method Hnr after w2 Hafter) as (replies2 & w3 & Hrun2 & Hans2).
  exists replies2, w3. split; [exact Hans2|].
  rewrite handler_remote_function.
  eapply remote_function_batch; [eassumption|eassumption|].
  fold method. rewrite relay_calls_around.
  rewrite (bind_ok _ _ _ _ _ Hrun1).
  assert (Hcall : relay_call method call w1 = (Ok JNull, w2)).
  { rewrite (first_argument_relay_call method call x w1 Hx Ht).
    unfold method. rewrite client_method_contract, Hpost. simpl.
    destruct (status_code response =? 200) eqn:E; [|reflexivity].
    apply Z.eqb_eq in E. contradiction. }
  rewrite (bind_ok _ _ _ _ _ Hcall), (bind_ok _ _ _ _ _ Hrun2). reflexivity.
Qed.

End PartialFailure.

Lemma failed_item_yields_null_witness :
  exists replies2 w3,
    answered (client_method flaky_post test_client Encode)
             [transform_request test_client Encode "4111111111111111";
              transform_request test_client Encode "BAD"]
             [JNull; JStr "42"] replies2 w3
    /\ handler flaky_post test_client Flask Encode mixed_request []
       = (Ok (replies_response ([JStr "ENC(4111111111111111)"] ++ JNull :: replies2)), w3).
Proof.
  apply (failed_item_yields_null flaky_post test_client Flask Encode mixed_request
           (envelope mixed_calls)
           [JArr [JStr "4111111111111111"]] (JArr [JStr "BAD"]) [JNull; JStr "42"]
           (JStr "BAD") []
           [JStr "ENC(4111111111111111)"]
           [transform_request test_client Encode "4111111111111111"]
           {| status_code := 500; json_body := None |}
           [transform_request test_client Encode "4111111111111111";
            transform_request test_client Encode "BAD"]);
    try reflexivity.
  - apply (answered_cons _ _ _ _
             [transform_request test_client Encode "4111111111111111"]);
      [reflexivity | apply answered_nil].
  - simpl. lia.
Defined.

(** The batch [["BAD"], 4111111111111111] with a Vault that refuses BAD:
    the Vault reports a failure for one item, the first; the second entry
    is a bare number, on which [len(call)] raises; the batch is answered
    500, with no replies, after the one request was made. *)
Lemma refused_item_beside_number_gets_500 :
  fst (flaky_post (transform_request test_client Encode "BAD") [])
  = Ok {| status_code := 500; json_body := None |}
  /\ handler flaky_post test_client Flask Encode
             (json_request (Some "/encrypt")
                (JObj [("calls", JArr [JArr [JStr "BAD"]; JInt 4111111111111111])])) []
     = (Ok (JObj [("error", JStr "Internal server error")], 500),
        [transform_request test_client Encode "BAD"])
  /\ handler flaky_post test_client Cloud Encode
             (json_request (Some "/encrypt")
                (JObj [("calls", JArr [JArr [JStr "BAD"]; JInt 4111111111111111])])) []
     = (Ok (JObj [("error", JStr "Internal server error")], 500),
        [transform_request test_client Encode "BAD"]).
Proof. repeat split; reflexivity. Qed.

(** C6 (as amended).  An entry that is an empty list, missing, or a list
    whose single element is falsy is answered with null and without a call to the
    Vault, whatever its neighbours.  The loop appends null and goes on in
    the world it was in.  Putting such an entry into any batch leaves the
    handler's answer as it was but for a null at the entry's position, and
    leaves the Vault as the batch without it does (when a neighbour makes
    the handler answer 500, it does so with and without the entry).  In a
    batch of well-formed entries the answer is 200, with the replies of the
    entries before, null, and the replies of the entries after.  With the
    stub that encodes X as ENC(X), the batch [["4111111111111111"], [],
    ["4222222222222222"]] gets the replies ["ENC(4111111111111111)", null,
    "ENC(4222222222222222)"] from two requests to the Vault. *)
Theorem absent_call_yields_null call :
  absent_call call ->
  (forall World (requests_post : VaultRequest -> M World Response) vault_client
          d op rest replies w,
      handler_loop requests_post vault_client d op (call :: rest) replies w
      = handler_loop requests_post vault_client d op rest (replies ++ [JNull]) w)
  /\ (forall World (requests_post : VaultRequest -> M World Response) vault_client
             d op request request' kvs kvs' before after w,
         body request = Some (JObj kvs) ->
         dict_lookup kvs "calls" = Some (JArr (before ++ call :: after)) ->
         body request' = Some (JObj kvs') ->
         dict_lookup kvs' "calls" = Some (JArr (before ++ after)) ->
         exists response response' w',
           handler requests_post vault_client d op request w = (Ok response, w')
           /\ handler requests_post vault_client d op request' w = (Ok response', w')
           /\ ((response = internal_error /\ response' = internal_error)
               \/ exists replies1 replies2,
                    List.length replies1 = List.length before
                    /\ response = replies_response (replies1 ++ JNull :: replies2)
                    /\ response' = replies_response (replies1 ++ replies2)))
  /\ (forall World (requests_post : VaultRequest -> M World Response) vault_client
             d op request kvs before after w,
         body request = Some (JObj kvs) ->
         dict_lookup kvs "calls" = Some (JArr (before ++ call :: after)) ->
         forallb well_formed_call before = true ->
         forallb well_formed_call after = true ->
         exists replies1 w1 replies2 w2,
           answered (client_method requests_post vault_client op) w before replies1 w1
           /\ answered (client_method requests_post vault_client op) w1 after replies2 w2
           /\ handler requests_post vault_client d op request w
              = (Ok (replies_response (replies1 ++ JNull :: replies2)), w2))
  /\ (forall d p,
         handler stub_post test_client d Encode
                 (json_request p
                    (JObj [("calls", JArr [JArr [JStr "4111111111111111"]; JArr [];
                                           JArr [JStr "4222222222222222"]])])) []
         = (Ok (JObj [("replies", JArr [JStr "ENC(4111111111111111)"; JNull;
                                        JStr "ENC(4222222222222222)"])], 200),
            [transform_request test_client Encode "4111111111111111";
             transform_request test_client Encode "4222222222222222"])).
Proof.
  intros Habsent.
  assert (Hstep : forall World (method : string -> M World json) w,
             relay_call method call w = (Ok JNull, w)).
  { intros World method w. destruct Habsent as [ | | x Hx]; try reflexivity.
    unfold relay_call, bind, lift, ret. simpl. now rewrite Hx. }
  split; [|split; [|split]].
  - intros World requests_post vault_client d op rest replies w.
    rewrite !handler_loop_relay_calls, relay_calls_cons.
    now rewrite (bind_ok _ _ _ _ _ (Hstep World _ w)).
  - intros World requests_post vault_client d op request request' kvs kvs' before after w
           Hb Hc Hb' Hc'.
    set (method := client_method requests_post vault_client op).
    rewrite !handler_remote_function. fold method.
    destruct (relay_calls method before [] w) as [[rs1|e] w1] eqn:E1.
    + destruct (relay_calls method after [] w1) as [[rs2|e] w2] eqn:E2.
      * exists (replies_response (rs1 ++ JNull :: rs2)), (replies_response (rs1 ++ rs2)), w2.
        split; [|split].
        -- eapply remote_function_batch; [eassumption|eassumption|].
           rewrite relay_calls_around, (bind_ok _ _ _ _ _ E1).
           rewrite (bind_ok _ _ _ _ _ (Hstep World method w1)).
           now rewrite (bind_ok _ _ _ _ _ E2).
        -- eapply remote_function_batch; [eassumption|eassumption|].
           rewrite relay_calls_app, (bind_ok _ _ _ _ _ E1).
           now rewrite (bind_ok _ _ _ _ _ E2).
        -- right. exists rs1, rs2. split; [|split; reflexivity].
           eapply relay_calls_length. eassumption.
      * exists internal_error, internal_error, w2. split; [|split; [|left; split; reflexivity]].
        -- eapply remote_function_broken_batch; [eassumption|eassumption|].
           rewrite relay_calls_around, (bind_ok _ _ _ _ _ E1).
           rewrite (bind_ok _ _ _ _ _ (Hstep World method w1)).
           now rewrite (bind_raise _ _ _ _ _ E2).
        -- eapply remote_function_broken_batch; [eassumption|eassumption|].
           rewrite relay_calls_app, (bind_ok _ _ _ _ _ E1).
           now rewrite (bind_raise _ _ _ _ _ E2).
    + exists internal_error, internal_error, w1. split; [|split; [|left; split; reflexivity]].
      * eapply remote_function_broken_batch; [eassumption|eassumption|].
        rewrite relay_calls_around. now rewrite (bind_raise _ _ _ _ _ E1).
      * eapply remote_function_broken_batch; [eassumption|eassumption|].
        rewrite relay_calls_app. now rewrite (bind_raise _ _ _ _ _ E1).
  - intros World requests_post vault_client d op request kvs before after w
           Hb Hc Hwf1 Hwf2.
    set (method := client_method requests_post vault_client op).
    assert (Hnr : forall s, never_raises (method s))
      by apply client_method_never_raises.
    destruct (relay_calls_answered method Hnr before w Hwf1) as (rs1 & w1 & Hrun1 & Hans1).
    destruct (relay_calls_answered method Hnr after w1 Hwf2) as (rs2 & w2 & Hrun2 & Hans2).
    exists rs1, w1, rs2, w2. split; [exact Hans1|split; [exact Hans2|]].
    rewrite handler_remote_function.
    eapply remote_function_batch; [eassumption|eassumption|].
    fold method. rewrite relay_calls_around.
    rewrite (bind_ok _ _ _ _ _ Hrun1), (bind_ok _ _ _ _ _ (Hstep World method w1)).
    now rewrite (bind_ok _ _ _ _ _ Hrun2).
  - intros [] p; reflexivity.
Qed.

Lemma absent_call_yields_null_witness :
  handler_loop stub_post test_client Flask Encode
               [JArr [JInt 0]; JArr [JStr "4222222222222222"]] [JStr "ENC(41)"] []
  = handler_loop stub_post test_client Flask Encode
                 [JArr [JStr "4222222222222222"]] ([JStr "ENC(41)"] ++ [JNull]) [].
Proof.
  apply (proj1 (absent_call_yields_null (JArr [JInt 0]) (absent_falsy (JInt 0) eq_refl))).
Defined.

(** The batch [[], 4111111111111111]: the empty entry is at position 0,
    its neighbour is a bare number, and the batch is answered 500 with no
    reply at any position. *)
Lemma empty_entry_beside_number_gets_500 :
  handler stub_post test_client Flask Encode
          (json_request (Some "/encrypt")
             (JObj [("calls", JArr [JArr []; JInt 4111111111111111])])) []
  = (Ok (JObj [("error", JStr "Internal server error")], 500), [])
  /\ handler stub_post test_client Cloud Encode
             (json_request (Some "/encrypt")
                (JObj [("calls", JArr [JArr []; JInt 4111111111111111])])) []
     = (Ok (JObj [("error", JStr "Internal server error")], 500), []).
Proof. split; reflexivity. Qed.

(** C9.  For a call with a first element [x] that is truthy, the loop
    calls the client method on [str(x)] and appends what it returns; a
    batch of that one call is answered 200 with the single reply the
    client makes of the Vault's answer to the request whose payload is
    [{"value": str(x)}].  The number 4111111111111111 goes out as
    "4111111111111111" and [true] as "True". *)
Theorem first_element_sent_as_str call x :
  first_argument call = Some x ->
  truthy x = true ->
  (forall World (requests_post : VaultRequest -> M World Response) vault_client
          d op rest replies w,
      handler_loop requests_post vault_client d op (call :: rest) replies w
      = bind (client_method requests_post vault_client op (py_str x))
             (fun reply =>
                handler_loop requests_post vault_client d op rest (replies ++ [reply])) w)
  /\ (forall World (requests_post : VaultRequest -> M World Response) vault_client
             d op request kvs w,
         body request = Some (JObj kvs) ->
         dict_lookup kvs "calls" = Some (JArr [call]) ->
         handler requests_post vault_client d op request w
         = (Ok (replies_response
                  [contract_result (result_field op)
                     (fst (requests_post (transform_request vault_client op (py_str x)) w))]),
            snd (requests_post (transform_request vault_client op (py_str x)) w))
         /\ payload (transform_request vault_client op (py_str x))
            = JObj [("value", JStr (py_str x))])
  /\ py_str (JInt 4111111111111111) = "4111111111111111"
  /\ py_str (JBool true) = "True".
Proof.
  intros Hx Ht.
  assert (Hstep : forall World (method : string -> M World json) w,
             relay_call method call w = method (py_str x) w)
    by (intros; now apply first_argument_relay_call).
  split; [|split; [|split; reflexivity]].
  - intros World requests_post vault_client d op rest replies w.
    rewrite handler_loop_relay_calls, relay_calls_cons.
    unfold bind. rewrite Hstep.
    destruct (client_method requests_post vault_client op (py_str x) w) as [[r|e] w1];
      [|reflexivity].
    now rewrite handler_loop_relay_calls.
  - intros World requests_post vault_client d op request kvs w Hb Hc. split.
    + rewrite handler_remote_function.
      eapply remote_function_batch; [eassumption|eassumption|].
      rewrite relay_calls_one. unfold bind. rewrite Hstep.
      now rewrite client_method_contract.
    + destruct op; reflexivity.
Qed.

Lemma first_element_sent_as_str_witness :
  handler stub_post test_client Cloud Encode
          (json_request None (JObj [("calls", JArr [JArr [JInt 4111111111111111]])])) []
  = (Ok (replies_response [JStr "ENC(4111111111111111)"]),
     [transform_request test_client Encode "4111111111111111"]).
Proof.
  apply (proj1 (proj1 (proj2 (first_element_sent_as_str (JArr [JInt 4111111111111111])
                                   (JInt 4111111111111111) eq_refl eq_refl))
                  _ stub_post test_client Cloud Encode
                  (json_request None (JObj [("calls", JArr [JArr [JInt 4111111111111111]])]))
                  [("calls", JArr [JArr [JInt 4111111111111111]])] [] eq_refl eq_refl)).
Defined.

(** ** Validation of the request *)

Section Validation.

Context {World : Type}.
Variable requests_post : VaultRequest -> M World Response.
Variable vault_client : VaultTransformClient.

(** A handler never raises: it answers with one of three shapes. *)
Lemma remote_function_answers silent (method : string -> M World json) request w :
  exists response w',
    remote_function silent method request w = (Ok response, w')
    /\ (response = invalid_request \/ response = internal_error
        \/ exists replies, response = replies_response replies).
Proof.
  unfold remote_function, try_except, bind, lift, ret.
  destruct (get_json silent request) as [j|e]; [|eauto 6].
  destruct (negb (truthy j)); [eauto 6|].
  destruct (py_in "calls" j) as [present|e]; [|eauto 6].
  destruct present; simpl; [|eauto 6].
  destruct (py_getitem_str j "calls") as [calls|e]; [|eauto 6].
  destruct (py_iter calls) as [items|e]; [|eauto 6].
  destruct (relay_calls method items [] w) as [[replies|e] w']; eauto 8.
Qed.

Lemma remote_function_rejects silent (method : string -> M World json) request j w :
  body request = Some j ->
  truthy j = false \/ py_in "calls" j = Ok false ->
  remote_function silent method request w = (Ok invalid_request, w).
Proof.
  intros Hb H. unfold remote_function, get_json, try_except, bind, lift, ret.
  rewrite Hb. destruct (truthy j) eqn:Ht; simpl; [|reflexivity].
  destruct H as [H|H]; [discriminate|]. now rewrite H.
Qed.

(** C3 (as amended).  Each of the four handlers answers 400 with an error
    object when the JSON body is falsy (null, false, 0, an empty string,
    list or object) or is an object, a list or a string without [calls];
    the Cloud Function handlers do so too when the body is reported not to
    be JSON.  When the body is an object whose [calls] is a list of entries
    that are each falsy, a list or a string, the answer is 200 with a body
    of the shape [{"replies": [...]}], one reply per call.  When [calls] is
    a list with any other entry, or is null, a boolean or a number, when
    the body is a non-zero number or [true], and when the JSON loader
    itself raises on the body, the answer is 500 with an error object.  No
    other answer is ever given. *)
Theorem request_validation d op request w :
  (d = Cloud -> body request = None -> load_error request = None ->
   handler requests_post vault_client d op request w = (Ok invalid_request, w))
  /\ (forall e, body request = None -> load_error request = Some e ->
      handler requests_post vault_client d op request w = (Ok internal_error, w))
  /\ (forall j, body request = Some j ->
        truthy j = false \/ py_in "calls" j = Ok false ->
        handler requests_post vault_client d op request w = (Ok invalid_request, w))
  /\ (forall kvs calls, body request = Some (JObj kvs) ->
        dict_lookup kvs "calls" = Some (JArr calls) ->
        forallb well_formed_call calls = true ->
        exists replies w',
          handler requests_post vault_client d op request w
          = (Ok (JObj [("replies", JArr replies)], 200), w')
          /\ List.length replies = List.length calls)
  /\ (forall kvs calls, body request = Some (JObj kvs) ->
        dict_lookup kvs "calls" = Some (JArr calls) ->
        forallb well_formed_call calls = false ->
        exists w', handler requests_post vault_client d op request w
                   = (Ok internal_error, w'))
  /\ (forall kvs calls, body request = Some (JObj kvs) ->
        dict_lookup kvs "calls" = Some calls ->
        scalar calls = true ->
        handler requests_post vault_client d op request w = (Ok internal_error, w))
  /\ (forall j, body request = Some j ->
        truthy j = true ->
        scalar j = true ->
        handler requests_post vault_client d op request w = (Ok internal_error, w))
  /\ (exists response w',
        handler requests_post vault_client d op request w = (Ok response, w')
        /\ (response = invalid_request \/ response = internal_error
            \/ exists replies, response = replies_response replies)).
Proof.
  rewrite handler_remote_function.
  set (method := client_method requests_post vault_client op).
  assert (Hnr : forall s, never_raises (method s))
    by apply client_method_never_raises.
  repeat split.
  - intros -> Hb He. unfold remote_function, get_json, try_except, bind, lift, ret.
    now rewrite Hb, He.
  - intros e Hb He. unfold remote_function, get_json, try_except, bind, lift, ret.
    now rewrite Hb, He.
  - intros j Hb H. eapply remote_function_rejects; eassumption.
  - intros kvs calls Hb Hc Hwf.
    destruct (relay_calls_answered method Hnr calls w Hwf) as (replies & w' & Hr & Hans).
    exists replies, w'. split.
    + eapply remote_function_batch; eassumption.
    + eapply answered_length; eassumption.
  - intros kvs calls Hb Hc Hwf.
    destruct (relay_calls_ill_formed method Hnr calls w Hwf) as (e & w' & He).
    exists w'. eapply remote_function_broken_batch; eassumption.
  - intros kvs calls Hb Hc Hi.
    rewrite (remote_function_calls _ _ _ _ _ _ Hb Hc).
    unfold try_except, bind, lift. destruct calls; try discriminate; reflexivity.
  - intros j Hb Ht Hin. unfold remote_function, get_json, try_except, bind, lift, ret.
    rewrite Hb, Ht. destruct j; try discriminate; reflexivity.
  - apply remote_function_answers.
Qed.

End Validation.

Lemma request_validation_witness :
  handler stub_post test_client Flask Encode
          (json_request (Some "/encrypt") (JObj [("invalid", JStr "data")])) []
  = (Ok invalid_request, []).
Proof.
  apply (proj1 (proj2 (proj2 (request_validation stub_post test_client Flask Encode
                         (json_request (Some "/encrypt") (JObj [("invalid", JStr "data")]))
                         [])))
           (JObj [("invalid", JStr "data")]) eq_refl (or_intror eq_refl)).
Defined.

(** The body [5] is valid JSON without a [calls] key and is answered 500,
    not 400; the body [{"calls": 5}] is valid JSON with a [calls] key and
    is answered 500, not 200 with replies. *)
Lemma valid_json_answered_500 :
  fst (handler stub_post test_client Flask Encode
         (json_request (Some "/encrypt") (JInt 5)) [])
  = Ok (JObj [("error", JStr "Internal server error")], 500)
  /\ fst (handler stub_post test_client Cloud Encode
            (json_request (Some "/encrypt") (JInt 5)) [])
     = Ok (JObj [("error", JStr "Internal server error")], 500)
  /\ fst (handler stub_post test_client Flask Decode
            (json_request (Some "/decrypt") (JObj [("calls", JInt 5)])) [])
     = Ok (JObj [("error", JStr "Internal server error")], 500)
  /\ fst (handler stub_post test_client Cloud Decode
            (json_request (Some "/decrypt") (JObj [("calls", JInt 5)])) [])
     = Ok (JObj [("error", JStr "Internal server error")], 500).
Proof. repeat split; reflexivity. Qed.

(** ** The Transform Client *)

(** C4.  For every input string, [encrypt] and [decrypt] send one request
    and return a value, never raising.  On a 200 response that carries the
    field ([encoded_value], respectively [decoded_value]) under [data] the
    value returned is that field's; when the request raised, the status is
    not 200, the body does not parse, [data] is absent or the field is
    absent, the value returned is [None]. *)
Theorem client_returns_field_or_none {World : Type}
        (requests_post : VaultRequest -> M World Response)
        (self : VaultTransformClient) (op : operation) (s : string) (w : World) :
  let outcome := fst (requests_post (transform_request self op s) w) in
  exists v,
    match op with
    | Encode => encrypt requests_post self s w
    | Decode => decrypt requests_post self s w
    end = (Ok v, snd (requests_post (transform_request self op s) w))
    /\ v = contract_result (result_field op) outcome
    /\ (forall response value,
           outcome = Ok response -> carries (result_field op) value response -> v = value)
    /\ (forall e, outcome = Raise e -> v = JNull)
    /\ (forall response,
           outcome = Ok response -> status_code response <> 200 -> v = JNull)
    /\ (forall response,
           outcome = Ok response -> json_body response = None -> v = JNull)
    /\ (forall response kvs,
           outcome = Ok response -> json_body response = Some (JObj kvs) ->
           dict_lookup kvs "data" = None -> v = JNull)
    /\ (forall response kvs data,
           outcome = Ok response -> json_body response = Some (JObj kvs) ->
           dict_lookup kvs "data" = Some (JObj data) ->
           dict_lookup data (result_field op) = None -> v = JNull).
Proof.
  intros outcome.
  exists (contract_result (result_field op) outcome). split.
  - pose proof (client_method_contract requests_post self op s w) as H.
    destruct op; exact H.
  - split; [reflexivity|].
    repeat split.
    + intros response value Ho (Hs & kvs & data & Hj & Hd & Hf).
      rewrite Ho. unfold contract_result. rewrite Hs, Hj, Hd, Hf. reflexivity.
    + intros e Ho. now rewrite Ho.
    + intros response Ho Hs. rewrite Ho. unfold contract_result.
      destruct (status_code response =? 200) eqn:E; [|reflexivity].
      apply Z.eqb_eq in E. contradiction.
    + intros response Ho Hj. rewrite Ho. unfold contract_result. rewrite Hj.
      now destruct (status_code response =? 200).
    + intros response kvs Ho Hj Hd. rewrite Ho. unfold contract_result. rewrite Hj, Hd.
      now destruct (status_code response =? 200).
    + intros response kvs data Ho Hj Hd Hf. rewrite Ho. unfold contract_result.
      rewrite Hj, Hd, Hf. now destruct (status_code response =? 200).
Qed.

Lemma drop_last_append (s : string) (c : ascii) :
  drop_last (s +:+ String c EmptyString) = s.
Proof.
  induction s as [|a s IH]; [reflexivity|].
  simpl. destruct (s +:+ String c EmptyString) eqn:E.
  - destruct s; discriminate.
  - now rewrite IH.
Qed.

Lemma DEC_ENC (s : string) : DEC (ENC s) = s.
Proof. unfold ENC, DEC. simpl. apply drop_last_append. Qed.

(** C5.  If the Vault answers every encode request for [s] with a 200
    response carrying [encode s], every decode request for [s] with a 200
    response carrying [decode s], and [decode] undoes [encode], then for
    every string [x], empty or not, [encrypt(x)] returns a string and
    [decrypt] of that string returns [x]. *)
Theorem decrypt_encrypt_round_trip {World : Type}
        (requests_post : VaultRequest -> M World Response)
        (self : VaultTransformClient) (encode decode : string -> string)
        (x : string) (w : World) :
  (forall s w0, exists response w1,
      requests_post (transform_request self Encode s) w0 = (Ok response, w1)
      /\ carries "encoded_value" (JStr (encode s)) response) ->
  (forall s w0, exists response w1,
      requests_post (transform_request self Decode s) w0 = (Ok response, w1)
      /\ carries "decoded_value" (JStr (decode s)) response) ->
  (forall s, decode (encode s) = s) ->
  exists ciphertext w1 w2,
    encrypt requests_post self x w = (Ok (JStr ciphertext), w1)
    /\ decrypt requests_post self ciphertext w1 = (Ok (JStr x), w2).
Proof.
  intros Henc Hdec Hinv.
  destruct (Henc x w) as (r1 & w1 & Hp1 & Hs1 & kvs1 & d1 & Hj1 & Hd1 & Hf1).
  destruct (Hdec (encode x) w1) as (r2 & w2 & Hp2 & Hs2 & kvs2 & d2 & Hj2 & Hd2 & Hf2).
  exists (encode x), w1, w2. split.
  - change (encrypt requests_post self) with (client_method requests_post self Encode).
    rewrite client_method_contract, Hp1. cbn [fst snd result_field].
    unfold contract_result. now rewrite Hs1, Hj1, Hd1, Hf1.
  - change (decrypt requests_post self) with (client_method requests_post self Decode).
    rewrite client_method_contract, Hp2. cbn [fst snd result_field].
    unfold contract_result. now rewrite Hs2, Hj2, Hd2, Hf2, Hinv.
Qed.

Lemma decrypt_encrypt_round_trip_witness :
  exists ciphertext w1 w2,
    encrypt stub_post test_client "4111111111111111" [] = (Ok (JStr ciphertext), w1)
    /\ decrypt stub_post test_client ciphertext w1 = (Ok (JStr "4111111111111111"), w2).
Proof.
  apply (decrypt_encrypt_round_trip stub_post test_client ENC DEC "4111111111111111" []).
  - intros s w0. eexists _, _. split; [reflexivity|].
    split; [reflexivity|]. eexists _, _. repeat split; reflexivity.
  - intros s w0. eexists _, _. split; [reflexivity|].
    split; [reflexivity|]. eexists _, _. repeat split; reflexivity.
  - exact DEC_ENC.
Defined.

(** ** Start-up *)

(** C7.  When [VAULT_TOKEN] is absent or empty, building the client raises
    [ValueError], and importing either module raises with it: there is no
    route and no entry point.  When it is present and not empty the client
    is built from the environment alone, the Vault not being consulted,
    and the module is in place.  From then on, if every call to the Vault
    raises, a batch of well-formed entries is still answered 200, with one
    reply per call, each of them null; and whatever the Vault does, a
    handler answers and does not raise. *)
Theorem token_required_at_startup {World : Type}
        (requests_post : VaultRequest -> M World Response)
        (environ : gmap string string) :
  (environ !! "VAULT_TOKEN" = None \/ environ !! "VAULT_TOKEN" = Some EmptyString ->
   FlaskApp.load environ = Raise ValueError
   /\ CloudFunction.load environ = Raise ValueError
   /\ FlaskApp.main requests_post environ = Raise ValueError
   /\ CloudFunction.main requests_post environ = Raise ValueError)
  /\ (forall token, environ !! "VAULT_TOKEN" = Some token -> token <> EmptyString ->
        exists flask_client cloud_client,
          FlaskApp.load environ = Ok flask_client
          /\ CloudFunction.load environ = Ok cloud_client
          /\ vault_token flask_client = token
          /\ vault_token cloud_client = token
          /\ FlaskApp.main requests_post environ
             = Ok (fun r => match r with
                            | encrypt_route => handler requests_post flask_client Flask Encode
                            | decrypt_route => handler requests_post flask_client Flask Decode
                            | health_route => fun _ => FlaskApp.health_check
                            end)
          /\ CloudFunction.main requests_post environ
             = Ok (CloudFunction.vault_transform_bigquery requests_post cloud_client))
  /\ (forall vault_client d op request kvs calls w,
        (forall r w0, exists e w1, requests_post r w0 = (Raise e, w1)) ->
        body request = Some (JObj kvs) ->
        dict_lookup kvs "calls" = Some (JArr calls) ->
        forallb well_formed_call calls = true ->
        exists w', handler requests_post vault_client d op request w
                   = (Ok (replies_response (List.map (fun _ => JNull) calls)), w'))
  /\ (forall vault_client d op request w,
        exists response w',
          handler requests_post vault_client d op request w = (Ok response, w')).
Proof.
  split; [|split; [|split]].
  - intros H. unfold FlaskApp.main, CloudFunction.main, FlaskApp.load, CloudFunction.load,
      VaultTransformClient_init.
    destruct H as [H|H]; rewrite H; simpl; repeat split; reflexivity.
  - intros token H Hne. unfold FlaskApp.main, CloudFunction.main, FlaskApp.load,
      CloudFunction.load, VaultTransformClient_init. rewrite H.
    destruct (String.eqb token "") eqn:E; [apply String.eqb_eq in E; contradiction|].
    eexists _, _. repeat split; reflexivity.
  - intros vault_client d op request kvs calls w Hdown Hb Hc Hwf.
    set (method := client_method requests_post vault_client op).
    assert (Hnull : forall s w0, exists w1, method s w0 = (Ok JNull, w1)).
    { intros s w0. unfold method. rewrite client_method_contract.
      destruct (Hdown (transform_request vault_client op s) w0) as (e & w1 & He).
      rewrite He. simpl. eauto. }
    assert (Hrun : forall cs w0, forallb well_formed_call cs = true ->
               exists w1, relay_calls method cs [] w0
                          = (Ok (List.map (fun _ => JNull) cs), w1)).
    { induction cs as [|c cs IH]; intros w0 Hcs; [simpl; unfold ret; eauto|].
      simpl in Hcs. apply andb_true_iff in Hcs as [Hc0 Hcs].
      assert (Hstep : exists w1, relay_call method c w0 = (Ok JNull, w1)).
      { rewrite relay_call_well_formed by exact Hc0. unfold expected_reply.
        destruct (first_argument c) as [x|]; [|unfold ret; eauto].
        destruct (truthy x); [apply Hnull|unfold ret; eauto]. }
      destruct Hstep as (w1 & Hstep). destruct (IH w1 Hcs) as (w2 & Hrest).
      exists w2. rewrite relay_calls_cons, (bind_ok _ _ _ _ _ Hstep), relay_calls_acc.
      now rewrite (bind_ok _ _ _ _ _ Hrest). }
    destruct (Hrun calls w Hwf) as (w' & Hr). exists w'.
    rewrite handler_remote_function. eapply remote_function_batch; eassumption.
  - intros vault_client d op request w. rewrite handler_remote_function.
    destruct (remote_function_answers
                (silent_of d) (client_method requests_post vault_client op) request w)
      as (response & w' & H & _).
    eauto.
Qed.

Lemma token_required_at_startup_witness :
  FlaskApp.load (delete "VAULT_TOKEN" test_environ) = Raise ValueError
  /\ CloudFunction.load (delete "VAULT_TOKEN" test_environ) = Raise ValueError
  /\ FlaskApp.main unreachable_post (delete "VAULT_TOKEN" test_environ) = Raise ValueError
  /\ CloudFunction.main unreachable_post (delete "VAULT_TOKEN" test_environ)
     = Raise ValueError.
Proof.
  apply (proj1 (token_required_at_startup unreachable_post
                  (delete "VAULT_TOKEN" test_environ))).
  left. reflexivity.
Defined.

(** ** The envelope *)

(** C8.  Two request bodies that are objects with the same value under
    [calls] get the same answer from a handler, and leave the Vault in the
    same state, whatever their other fields (and whatever the paths of the
    two requests). *)
Theorem only_calls_is_consumed {World : Type}
        (requests_post : VaultRequest -> M World Response)
        (vault_client : VaultTransformClient) d op request1 request2 kvs1 kvs2 calls w :
  body request1 = Some (JObj kvs1) ->
  body request2 = Some (JObj kvs2) ->
  dict_lookup kvs1 "calls" = Some calls ->
  dict_lookup kvs2 "calls" = Some calls ->
  handler requests_post vault_client d op request1 w
  = handler requests_post vault_client d op request2 w.
Proof.
  intros Hb1 Hb2 Hc1 Hc2. rewrite !handler_remote_function.
  rewrite (remote_function_calls _ _ _ _ _ _ Hb1 Hc1).
  rewrite (remote_function_calls _ _ _ _ _ _ Hb2 Hc2). reflexivity.
Qed.

Lemma only_calls_is_consumed_witness :
  handler flaky_post test_client Flask Encode mixed_request []
  = handler flaky_post test_client Flask Encode
            (json_request None (JObj [("calls", JArr mixed_calls); ("extra", JInt 1)])) [].
Proof.
  apply (only_calls_is_consumed flaky_post test_client Flask Encode mixed_request
           (json_request None (JObj [("calls", JArr mixed_calls); ("extra", JInt 1)]))
           (envelope mixed_calls) [("calls", JArr mixed_calls); ("extra", JInt 1)]
           (JArr mixed_calls) []); reflexivity.
Defined.

(** ** Routing in the Cloud Function *)

Section Routing.

Context {World : Type}.
Variable requests_post : VaultRequest -> M World Response.
Variable vault_client : VaultTransformClient.

Lemma handler_answers d op request w :
  exists response w',
    handler requests_post vault_client d op request w = (Ok response, w')
    /\ (response = invalid_request \/ response = internal_error
        \/ exists replies, response = replies_response replies).
Proof. rewrite handler_remote_function. apply remote_function_answers. Qed.

Lemma handler_load_error d op request e w :
  get_json (silent_of d) request = Raise e ->
  handler requests_post vault_client d op request w = (Ok internal_error, w).
Proof.
  intros H. rewrite handler_remote_function.
  unfold remote_function, try_except, bind, lift, ret. now rewrite H.
Qed.

(** When the body loads, or is reported not to be JSON, the entry point
    answers as the branch taken does: its own catch-all is not reached. *)
Lemma vault_transform_bigquery_branch request j w :
  get_json true request = Ok j ->
  CloudFunction.vault_transform_bigquery requests_post vault_client request w
  = (let path := request_path request in
     if str_contains "/encrypt" path
     then CloudFunction.encrypt_credit_card requests_post vault_client request
     else if str_contains "/decrypt" path
          then CloudFunction.decrypt_credit_card requests_post vault_client request
          else if str_contains "/health" path
               then CloudFunction.health_check request
               else CloudFunction.encrypt_credit_card requests_post vault_client request) w.
Proof.
  intros Hj.
  unfold CloudFunction.vault_transform_bigquery, try_except, bind, lift at 1.
  rewrite Hj. cbv zeta. fold (request_path request).
  set (p := request_path request).
  change (CloudFunction.encrypt_credit_card requests_post vault_client)
    with (handler requests_post vault_client Cloud Encode).
  change (CloudFunction.decrypt_credit_card requests_post vault_client)
    with (handler requests_post vault_client Cloud Decode).
  destruct (str_contains "/encrypt" p);
    [|destruct (str_contains "/decrypt" p); [|destruct (str_contains "/health" p)]].
  - destruct (handler_answers Cloud Encode request w) as (r & w' & H & _). now rewrite H.
  - destruct (handler_answers Cloud Decode request w) as (r & w' & H & _). now rewrite H.
  - reflexivity.
  - destruct (handler_answers Cloud Encode request w) as (r & w' & H & _). now rewrite H.
Qed.

(** When the loader itself raises, the entry point's call of [get_json],
    made before the path is looked at, goes to the catch-all. *)
Lemma vault_transform_bigquery_load_error request e w :
  get_json true request = Raise e ->
  CloudFunction.vault_transform_bigquery requests_post vault_client request w
  = (Ok internal_error, w).
Proof.
  intros He.
  unfold CloudFunction.vault_transform_bigquery, try_except, bind, lift at 1.
  now rewrite He.
Qed.

Lemma get_json_silent_cases request :
  (exists j, get_json true request = Ok j)
  \/ (exists e, body request = None /\ load_error request = Some e
                /\ get_json true request = Raise e).
Proof.
  unfold get_json. destruct (body request); [eauto|].
  destruct (load_error request); eauto.
Qed.

(** C10 (as amended).  The Cloud Function entry point routes on the request
    path ("/" for a request object without one) by substring, trying
    [/encrypt], then [/decrypt], then [/health]; a path with none of the
    three is handled by [encrypt_credit_card], whose answer is a 400, a
    500 or a 200 and never a not-found.  A request on the health route is
    handled by [health_check] when loading its body does not raise; when
    the JSON loader itself raises on the body, the entry point answers 500
    from its own catch-all, which is also what the encrypt and decrypt
    handlers answer to such a request. *)
Theorem routing_by_substring request p w :
  request_path request = p ->
  (str_contains "/encrypt" p = true ->
   CloudFunction.vault_transform_bigquery requests_post vault_client request w
   = CloudFunction.encrypt_credit_card requests_post vault_client request w)
  /\ (str_contains "/encrypt" p = false -> str_contains "/decrypt" p = true ->
      CloudFunction.vault_transform_bigquery requests_post vault_client request w
      = CloudFunction.decrypt_credit_card requests_post vault_client request w)
  /\ (str_contains "/encrypt" p = false -> str_contains "/decrypt" p = false ->
      str_contains "/health" p = true ->
      (body request <> None \/ load_error request = None ->
       CloudFunction.vault_transform_bigquery requests_post vault_client request w
       = CloudFunction.health_check request w)
      /\ (forall e, body request = None -> load_error request = Some e ->
          CloudFunction.vault_transform_bigquery requests_post vault_client request w
          = (Ok (JObj [("error", JStr "Internal server error")], 500), w)))
  /\ (str_contains "/encrypt" p = false -> str_contains "/decrypt" p = false ->
      str_contains "/health" p = false ->
      CloudFunction.vault_transform_bigquery requests_post vault_client request w
      = CloudFunction.encrypt_credit_card requests_post vault_client request w
      /\ exists response w',
           CloudFunction.vault_transform_bigquery requests_post vault_client request w
           = (Ok response, w')
           /\ (snd response = 400 \/ snd response = 500 \/ snd response = 200)).
Proof.
  intros Hp.
  change (CloudFunction.encrypt_credit_card requests_post vault_client)
    with (handler requests_post vault_client Cloud Encode).
  change (CloudFunction.decrypt_credit_card requests_post vault_client)
    with (handler requests_post vault_client Cloud Decode).
  assert (Henc : str_contains "/encrypt" p = true \/
                 (str_contains "/encrypt" p = false /\ str_contains "/decrypt" p = false
                  /\ str_contains "/health" p = false) ->
                 CloudFunction.vault_transform_bigquery requests_post vault_client request w
                 = handler requests_post vault_client Cloud Encode request w).
  { intros Hroute.
    destruct (get_json_silent_cases request) as [(j & Hj) | (e & _ & _ & He)].
    - rewrite (vault_transform_bigquery_branch request j w Hj). cbv zeta. rewrite Hp.
      destruct Hroute as [-> | (-> & -> & ->)]; reflexivity.
    - rewrite (vault_transform_bigquery_load_error request e w He).
      symmetry. apply (handler_load_error Cloud Encode request e w He). }
  split; [|split; [|split]].
  - intros H. apply Henc. now left.
  - intros H1 H2.
    destruct (get_json_silent_cases request) as [(j & Hj) | (e & _ & _ & He)].
    + rewrite (vault_transform_bigquery_branch request j w Hj). cbv zeta.
      rewrite Hp, H1, H2. reflexivity.
    + rewrite (vault_transform_bigquery_load_error request e w He).
      symmetry. apply (handler_load_error Cloud Decode request e w He).
  - intros H1 H2 H3. split.
    + intros Hload.
      destruct (get_json_silent_cases request) as [(j & Hj) | (e & Hb & He & _)].
      * rewrite (vault_transform_bigquery_branch request j w Hj). cbv zeta.
        rewrite Hp, H1, H2, H3. reflexivity.
      * destruct Hload as [Hload | Hload]; [contradiction|]. rewrite Hload in He. discriminate.
    + intros e Hb He. apply (vault_transform_bigquery_load_error request e w).
      unfold get_json. now rewrite Hb, He.
  - intros H1 H2 H3. split; [apply Henc; right; auto|].
    rewrite Henc by (right; auto).
    destruct (handler_answers Cloud Encode request w) as (r & w' & H & Hshape).
    exists r, w'. split; [exact H|].
    destruct Hshape as [-> | [-> | (rs & ->)]]; simpl; auto.
Qed.

End Routing.

Lemma routing_by_substring_witness :
  CloudFunction.vault_transform_bigquery stub_post test_client
    {| path := Some "/decrypt/encrypt"; body := Some (JObj (envelope mixed_calls));
       load_error := None |} []
  = CloudFunction.encrypt_credit_card stub_post test_client
      {| path := Some "/decrypt/encrypt"; body := Some (JObj (envelope mixed_calls));
         load_error := None |} [].
Proof.
  apply (proj1 (routing_by_substring stub_post test_client
                  {| path := Some "/decrypt/encrypt";
                     body := Some (JObj (envelope mixed_calls)); load_error := None |}
                  "/decrypt/encrypt" [] eq_refl)).
  reflexivity.
Defined.

(** A request to [/health] on whose body the JSON loader raises: the entry
    point calls [get_json] before it looks at the path, and answers 500
    where [health_check] answers 200. *)
Lemma health_route_answered_500 :
  CloudFunction.vault_transform_bigquery stub_post test_client
    {| path := Some "/health"; body := None; load_error := Some RecursionError |} []
  = (Ok (JObj [("error", JStr "Internal server error")], 500), [])
  /\ CloudFunction.health_check (World := list VaultRequest)
       {| path := Some "/health"; body := None; load_error := Some RecursionError |} []
     = (Ok (JObj [("status", JStr "healthy")], 200), []).
Proof. split; reflexivity. Qed.

(** * Further properties *)

(** ** Configuration and headers *)

(** X2.  The Flask application takes the Vault address from [VAULT_URL]
    and does not look at [VAULT_ADDR]; the Cloud Function takes it from
    [VAULT_ADDR] and does not look at [VAULT_URL].  Setting the variable
    the other file reads changes nothing; setting the one it reads decides
    the address of the client. *)
Theorem address_variable_per_deployment (environ : gmap string string) (address : string) :
  FlaskApp.load (<["VAULT_ADDR" := address]> environ) = FlaskApp.load environ
  /\ CloudFunction.load (<["VAULT_URL" := address]> environ) = CloudFunction.load environ
  /\ (forall self, FlaskApp.load (<["VAULT_URL" := address]> environ) = Ok self ->
                   vault_url self = address)
  /\ (forall self, CloudFunction.load (<["VAULT_ADDR" := address]> environ) = Ok self ->
                   vault_url self = address).
Proof.
  unfold FlaskApp.load, CloudFunction.load, VaultTransformClient_init.
  repeat split.
  - rewrite !lookup_insert_ne by discriminate. reflexivity.
  - rewrite !lookup_insert_ne by discriminate. reflexivity.
  - intros self. rewrite lookup_insert_eq. rewrite !lookup_insert_ne by discriminate.
    destruct (environ !! "VAULT_TOKEN") as [t|]; [|discriminate].
    destruct (String.eqb t ""); [discriminate|]. intros H. inversion H. reflexivity.
  - intros self. rewrite lookup_insert_eq. rewrite !lookup_insert_ne by discriminate.
    destruct (environ !! "VAULT_TOKEN") as [t|]; [|discriminate].
    destruct (String.eqb t ""); [discriminate|]. intros H. inversion H. reflexivity.
Qed.

(** ** The two deployments side by side *)

Section Deployments.

Context {World : Type}.
Variable requests_post : VaultRequest -> M World Response.
Variable vault_client : VaultTransformClient.

(** X3.  On a request whose body loads as JSON, the Flask handler and the
    Cloud Function handler for the same operation give the same answer and
    leave the Vault in the same state. *)
Theorem deployments_agree_on_json op request j w :
  body request = Some j ->
  handler requests_post vault_client Flask op request w
  = handler requests_post vault_client Cloud op request w.
Proof.
  intros Hb. rewrite !handler_remote_function.
  unfold remote_function, get_json. rewrite Hb. reflexivity.
Qed.

(** X4.  On a request whose body does not load as JSON the Flask handlers,
    which call [get_json] without [silent], answer 500 with "Internal
    server error".  The Cloud Function handlers answer 400 with "Invalid
    request format" when the body is reported not to be JSON, and 500 with
    "Internal server error" when the loader itself raises.  None of them
    calls the Vault. *)
Theorem deployments_differ_without_json op request w :
  body request = None ->
  handler requests_post vault_client Flask op request w
  = (Ok (JObj [("error", JStr "Internal server error")], 500), w)
  /\ handler requests_post vault_client Cloud op request w
     = match load_error request with
       | None => (Ok (JObj [("error", JStr "Invalid request format")], 400), w)
       | Some _ => (Ok (JObj [("error", JStr "Internal server error")], 500), w)
       end.
Proof.
  intros Hb. rewrite !handler_remote_function.
  unfold remote_function, get_json, try_except, bind, lift, ret. rewrite Hb.
  destruct (load_error request); split; reflexivity.
Qed.

(** X5.  The Cloud Function entry point answers a request whose body is
    reported not to be JSON (a bare GET, a malformed body) with 400
    "Invalid request format", unless the path holds [/health] and neither
    [/encrypt] nor [/decrypt], in which case it answers 200 "healthy".
    When the loader itself raises on the body it answers 500 "Internal
    server error" whatever the path, the health path included.  In none of
    these cases is the Vault called. *)
Theorem entry_point_without_body request w :
  body request = None ->
  CloudFunction.vault_transform_bigquery requests_post vault_client request w
  = match load_error request with
    | Some _ => (Ok (JObj [("error", JStr "Internal server error")], 500), w)
    | None =>
        if negb (str_contains "/encrypt" (request_path request))
           && negb (str_contains "/decrypt" (request_path request))
           && str_contains "/health" (request_path request)
        then (Ok (JObj [("status", JStr "healthy")], 200), w)
        else (Ok (JObj [("error", JStr "Invalid request format")], 400), w)
    end.
Proof.
  intros Hb. destruct (load_error request) as [e|] eqn:He.
  - apply (vault_transform_bigquery_load_error requests_post vault_client request e w).
    unfold get_json. now rewrite Hb, He.
  - assert (Hj : get_json true request = Ok JNull)
      by (unfold get_json; now rewrite Hb, He).
    rewrite (vault_transform_bigquery_branch requests_post vault_client request JNull w Hj).
    cbv zeta.
    assert (H : forall op, handler requests_post vault_client Cloud op request w
                           = (Ok (JObj [("error", JStr "Invalid request format")], 400), w)).
    { intros op. rewrite handler_remote_function.
      unfold remote_function, try_except, bind, lift, ret. simpl silent_of. now rewrite Hj. }
    destruct (str_contains "/encrypt" (request_path request)); simpl; [apply (H Encode)|].
    destruct (str_contains "/decrypt" (request_path request)); simpl; [apply (H Decode)|].
    destruct (str_contains "/health" (request_path request)); [reflexivity|apply (H Encode)].
Qed.

End Deployments.

Lemma deployments_agree_on_json_witness :
  handler flaky_post test_client Flask Encode mixed_request []
  = handler flaky_post test_client Cloud Encode mixed_request [].
Proof.
  apply (deployments_agree_on_json flaky_post test_client Encode mixed_request
           (JObj (envelope mixed_calls)) []).
  reflexivity.
Defined.

Lemma deployments_differ_without_json_witness :
  handler stub_post test_client Flask Encode
          {| path := Some "/encrypt"; body := None; load_error := Some RecursionError |} []
  = (Ok (JObj [("error", JStr "Internal server error")], 500), [])
  /\ handler stub_post test_client Cloud Encode
             {| path := Some "/encrypt"; body := None; load_error := Some RecursionError |} []
     = (Ok (JObj [("error", JStr "Internal server error")], 500), []).
Proof.
  apply (deployments_differ_without_json stub_post test_client Encode
           {| path := Some "/encrypt"; body := None; load_error := Some RecursionError |} []).
  reflexivity.
Defined.

Lemma entry_point_without_body_witness :
  CloudFunction.vault_transform_bigquery stub_post test_client
    {| path := Some "/"; body := None; load_error := None |} []
  = (Ok (JObj [("error", JStr "Invalid request format")], 400), []).
Proof.
  apply (entry_point_without_body stub_post test_client
           {| path := Some "/"; body := None; load_error := None |} []).
  reflexivity.
Defined.

(** ** What the loop reads and what it sends *)

Section LoopReads.

Context {World : Type}.

Lemma relay_call_first_only (method : string -> M World json) call w :
  relay_call method (first_only call) w = relay_call method call w.
Proof.
  destruct call as [ | | | | s | xs | ]; try reflexivity.
  - destruct s as [|c rest]; reflexivity.
  - destruct xs as [|x rest]; reflexivity.
Qed.

Lemma relay_calls_first_only (method : string -> M World json) calls : forall replies w,
  relay_calls method (List.map first_only calls) replies w
  = relay_calls method calls replies w.
Proof.
  induction calls as [|call rest IH]; intros replies w; [reflexivity|].
  change (List.map first_only (call :: rest))
    with (first_only call :: List.map first_only rest).
  rewrite !relay_calls_cons. unfold bind. rewrite relay_call_first_only.
  destruct (relay_call method call w) as [[r|e] w1]; [apply IH|reflexivity].
Qed.

Lemma chars_first_only s :
  List.map (fun c => JArr [c]) (chars s) = List.map first_only (chars s).
Proof. induction s as [|c s IH]; [reflexivity|]. simpl. now rewrite IH. Qed.

Variable requests_post : VaultRequest -> M World Response.
Variable vault_client : VaultTransformClient.

(** X6.  Of each entry the handlers read the first element only: a list
    with further elements is answered as the list of its first element
    alone, and an entry that is a bare string as the list of its first
    character.  Cutting every entry of a batch down in this way changes
    neither the answer nor what is sent to the Vault. *)
Theorem only_first_element_is_read d op request request' kvs kvs' calls w :
  body request = Some (JObj kvs) ->
  dict_lookup kvs "calls" = Some (JArr calls) ->
  body request' = Some (JObj kvs') ->
  dict_lookup kvs' "calls" = Some (JArr (List.map first_only calls)) ->
  handler requests_post vault_client d op request w
  = handler requests_post vault_client d op request' w.
Proof.
  intros Hb Hc Hb' Hc'. rewrite !handler_remote_function.
  rewrite (remote_function_calls _ _ _ _ _ _ Hb Hc).
  rewrite (remote_function_calls _ _ _ _ _ _ Hb' Hc').
  unfold try_except, bind, lift, ret. simpl.
  now rewrite relay_calls_first_only.
Qed.

(** X7.  When [calls] is a string and not a list, the handlers loop over
    its characters: the body [{"calls": "41"}] is answered as
    [{"calls": [["4"], ["1"]]}] is, with one reply per character. *)
Theorem string_calls_relayed_per_character d op request request' kvs kvs' s w :
  body request = Some (JObj kvs) ->
  dict_lookup kvs "calls" = Some (JStr s) ->
  body request' = Some (JObj kvs') ->
  dict_lookup kvs' "calls" = Some (JArr (List.map (fun c => JArr [c]) (chars s))) ->
  handler requests_post vault_client d op request w
  = handler requests_post vault_client d op request' w.
Proof.
  intros Hb Hc Hb' Hc'. rewrite !handler_remote_function.
  rewrite (remote_function_calls _ _ _ _ _ _ Hb Hc).
  rewrite (remote_function_calls _ _ _ _ _ _ Hb' Hc').
  unfold try_except, bind, lift, ret. simpl.
  now rewrite chars_first_only, relay_calls_first_only.
Qed.

Lemma logged_client_method op s w log :
  client_method (logged requests_post) vault_client op s (w, log)
  = (Ok (contract_result (result_field op)
           (fst (requests_post (transform_request vault_client op s) w))),
     (snd (requests_post (transform_request vault_client op s) w),
      log ++ [transform_request vault_client op s])).
Proof.
  rewrite client_method_contract. unfold logged. simpl.
  destruct (requests_post (transform_request vault_client op s) w) as [r w1]. reflexivity.
Qed.

Lemma logged_relay_calls op calls : forall w log,
  exists outcome w',
    relay_calls (client_method (logged requests_post) vault_client op) calls [] (w, log)
    = (outcome, (w', log ++ List.map (transform_request vault_client op) (sent_values calls)))
    /\ (forallb well_formed_call calls = true -> exists replies, outcome = Ok replies)
    /\ (forallb well_formed_call calls = false -> exists e, outcome = Raise e).
Proof.
  set (method := client_method (logged requests_post) vault_client op).
  induction calls as [|call rest IH]; intros w log.
  - exists (Ok []), w. simpl. rewrite app_nil_r.
    split; [reflexivity|]. split; [eauto|discriminate].
  - rewrite relay_calls_cons. simpl.
    destruct (well_formed_call call) eqn:Hwf.
    + assert (Hstep : exists r w1,
                 relay_call method call (w, log)
                 = (Ok r, (w1, log ++ List.map (transform_request vault_client op)
                                     (match first_argument call with
                                      | Some x => if truthy x then [py_str x] else []
                                      | None => []
                                      end)))).
      { rewrite relay_call_well_formed by exact Hwf. unfold expected_reply.
        destruct (first_argument call) as [x|];
          [|exists JNull, w; simpl; now rewrite app_nil_r].
        destruct (truthy x); [|exists JNull, w; simpl; now rewrite app_nil_r].
        unfold method. rewrite logged_client_method. eauto. }
      destruct Hstep as (r & w1 & Hstep).
      destruct (IH w1 (log ++ List.map (transform_request vault_client op)
                             (match first_argument call with
                              | Some x => if truthy x then [py_str x] else []
                              | None => []
                              end))) as (out & w2 & Hrun & Hok & Hbad).
      rewrite (bind_ok _ _ _ _ _ Hstep), relay_calls_acc. unfold bind. rewrite Hrun.
      assert (Heq : (log ++ List.map (transform_request vault_client op)
                              (match first_argument call with
                               | Some x => if truthy x then [py_str x] else []
                               | None => []
                               end))
                      ++ List.map (transform_request vault_client op) (sent_values rest)
                    = log ++ List.map (transform_request vault_client op)
                               (match first_argument call with
                                | Some x =>
                                    if truthy x then py_str x :: sent_values rest
                                    else sent_values rest
                                | None => sent_values rest
                                end)).
      { rewrite <- app_assoc. f_equal.
        destruct (first_argument call) as [x|]; [|reflexivity].
        destruct (truthy x); reflexivity. }
      rewrite Heq in *.
      destruct out as [rs|e].
      * exists (Ok ([] ++ [r] ++ rs)), w2. split; [reflexivity|].
        split; [eauto|]. intros H. destruct (Hbad H) as (e & He). discriminate.
      * exists (Raise e), w2. split; [reflexivity|].
        split; [|eauto]. intros H. destruct (Hok H) as (rs & Hrs). discriminate.
    + destruct (relay_call_ill_formed method call (w, log) Hwf) as (e & He).
      rewrite (bind_raise _ _ _ _ _ He). exists (Raise e), w. simpl. rewrite app_nil_r.
      split; [reflexivity|]. split; [discriminate|eauto].
Qed.

(** X8.  What a handler sends to the Vault for a batch: one request for
    each entry whose first element is truthy, carrying [str] of that
    element, in the order of the entries; none for an empty, missing or
    falsy entry; none twice, whatever the Vault answered.  When the batch
    holds an entry the loop cannot process the answer is 500, after the
    requests for the entries before it have been made. *)
Theorem requests_sent_for_a_batch d op request kvs calls w log :
  body request = Some (JObj kvs) ->
  dict_lookup kvs "calls" = Some (JArr calls) ->
  exists response w',
    handler (logged requests_post) vault_client d op request (w, log)
    = (Ok response,
       (w', log ++ List.map (transform_request vault_client op) (sent_values calls)))
    /\ (forallb well_formed_call calls = true ->
        exists replies, response = replies_response replies
                        /\ List.length replies = List.length calls)
    /\ (forallb well_formed_call calls = false -> response = internal_error).
Proof.
  intros Hb Hc. rewrite handler_remote_function.
  destruct (logged_relay_calls op calls w log) as (out & w' & Hrun & Hok & Hbad).
  destruct out as [rs|e].
  - exists (replies_response rs), w'. split; [|split].
    + eapply remote_function_batch; eassumption.
    + intros _. exists rs. split; [reflexivity|]. eapply relay_calls_length. eassumption.
    + intros H. destruct (Hbad H) as (e & He). discriminate.
  - exists internal_error, w'. split; [|split].
    + eapply remote_function_broken_batch; eassumption.
    + intros H. destruct (Hok H) as (rs & Hrs). discriminate.
    + reflexivity.
Qed.

End LoopReads.

Lemma only_first_element_is_read_witness :
  handler stub_post test_client Flask Encode
          (json_request None
             (JObj [("calls", JArr [JArr [JStr "4111111111111111"; JStr "ignored"];
                                    JStr "4222222222222222"; JArr []])])) []
  = handler stub_post test_client Flask Encode
            (json_request None
               (JObj [("calls", JArr [JArr [JStr "4111111111111111"];
                                      JArr [JStr "4"]; JArr []])])) [].
Proof.
  apply (only_first_element_is_read stub_post test_client Flask Encode
           (json_request None
              (JObj [("calls", JArr [JArr [JStr "4111111111111111"; JStr "ignored"];
                                     JStr "4222222222222222"; JArr []])]))
           (json_request None
              (JObj [("calls", JArr [JArr [JStr "4111111111111111"];
                                     JArr [JStr "4"]; JArr []])]))
           [("calls", JArr [JArr [JStr "4111111111111111"; JStr "ignored"];
                            JStr "4222222222222222"; JArr []])]
           [("calls", JArr [JArr [JStr "4111111111111111"]; JArr [JStr "4"]; JArr []])]
           [JArr [JStr "4111111111111111"; JStr "ignored"]; JStr "4222222222222222"; JArr []]
           []); reflexivity.
Defined.

Lemma string_calls_relayed_per_character_witness :
  handler stub_post test_client Cloud Encode
          (json_request None (JObj [("calls", JStr "41")])) []
  = handler stub_post test_client Cloud Encode
            (json_request None (JObj [("calls", JArr [JArr [JStr "4"]; JArr [JStr "1"]])])) [].
Proof.
  apply (string_calls_relayed_per_character stub_post test_client Cloud Encode
           (json_request None (JObj [("calls", JStr "41")]))
           (json_request None (JObj [("calls", JArr [JArr [JStr "4"]; JArr [JStr "1"]])]))
           [("calls", JStr "41")]
           [("calls", JArr [JArr [JStr "4"]; JArr [JStr "1"]])] "41" []); reflexivity.
Defined.

Lemma requests_sent_for_a_batch_witness :
  exists response w',
    handler (logged flaky_post) test_client Flask Encode mixed_request ([], [])
    = (Ok response,
       (w', [] ++ List.map (transform_request test_client Encode) (sent_values mixed_calls)))
    /\ (forallb well_formed_call mixed_calls = true ->
        exists replies, response = replies_response replies
                        /\ List.length replies = List.length mixed_calls)
    /\ (forallb well_formed_call mixed_calls = false -> response = internal_error).
Proof.
  apply (requests_sent_for_a_batch flaky_post test_client Flask Encode mixed_request
           (envelope mixed_calls) mixed_calls [] []); reflexivity.
Defined.

(** ** The callers *)

Section Callers.

Context {World : Type}.

Lemma script_encrypt_reply_read (requests_post : HttpPost World) s card_number w :
  script_encrypt requests_post s card_number w
  = (Ok (reply_read (fst (requests_post CLOUD_FUNCTION_URL
                                        (script_payload s card_number) w))),
     snd (requests_post CLOUD_FUNCTION_URL (script_payload s card_number) w)).
Proof.
  destruct s; simpl;
    unfold InteractiveQuery.encrypt_credit_card, QueryEncryptedData.encrypt_credit_card,
      script_payload, try_except, bind; simpl;
    match goal with
    | |- context [requests_post ?u ?p w] => destruct (requests_post u p w) as [[resp|e] w1]
    end; simpl; try reflexivity;
    unfold lift, ret, response_json;
    destruct (status_code resp =? 200); try reflexivity;
    destruct (json_body resp) as [[ | | | | t | xs | kvs]|]; simpl; try reflexivity;
    try (destruct (existsb (is_JStr "replies") xs); reflexivity);
    try (destruct (str_contains "replies" t); reflexivity);
    destruct (dict_lookup kvs "replies") as [[ | | | | t | xs | kvs']|]; simpl;
    try reflexivity;
    try (destruct t; reflexivity);
    try (destruct xs; reflexivity);
    destruct kvs'; reflexivity.
Qed.

(** X9.  [encrypt_credit_card] of the two query scripts posts one request
    and returns a value, never raising: the first of the [replies] when the
    response has status 200 and a non-empty [replies] list, and [None] when
    the request raised, the status is not 200, the body does not parse, or
    [replies] is absent or empty. *)
Theorem script_returns_first_reply_or_none (requests_post : HttpPost World) s card_number w :
  let outcome := fst (requests_post CLOUD_FUNCTION_URL (script_payload s card_number) w) in
  exists v,
    script_encrypt requests_post s card_number w
    = (Ok v, snd (requests_post CLOUD_FUNCTION_URL (script_payload s card_number) w))
    /\ (forall response kvs first rest,
           outcome = Ok response -> status_code response = 200 ->
           json_body response = Some (JObj kvs) ->
           dict_lookup kvs "replies" = Some (JArr (first :: rest)) -> v = first)
    /\ (forall e, outcome = Raise e -> v = JNull)
    /\ (forall response, outcome = Ok response -> status_code response <> 200 -> v = JNull)
    /\ (forall response, outcome = Ok response -> json_body response = None -> v = JNull)
    /\ (forall response kvs,
           outcome = Ok response -> json_body response = Some (JObj kvs) ->
           dict_lookup kvs "replies" = None -> v = JNull)
    /\ (forall response kvs,
           outcome = Ok response -> json_body response = Some (JObj kvs) ->
           dict_lookup kvs "replies" = Some (JArr []) -> v = JNull).
Proof.
  intros outcome. exists (reply_read outcome).
  split; [apply script_encrypt_reply_read|]. unfold reply_read.
  repeat split.
  - intros response kvs first rest -> Hs Hj Hr. now rewrite Hs, Hj, Hr.
  - intros e ->. reflexivity.
  - intros response -> Hs. destruct (status_code response =? 200) eqn:E; [|reflexivity].
    apply Z.eqb_eq in E. contradiction.
  - intros response -> Hj. rewrite Hj. now destruct (status_code response =? 200).
  - intros response kvs -> Hj Hr. rewrite Hj, Hr. now destruct (status_code response =? 200).
  - intros response kvs -> Hj Hr. rewrite Hj, Hr. now destruct (status_code response =? 200).
Qed.

Variable vault_post : VaultRequest -> M World Response.
Variable vault_client : VaultTransformClient.

Lemma string_call_relayed (method : string -> M World json) x w :
  x <> EmptyString ->
  relay_call method (JArr [JStr x]) w = method x w.
Proof.
  intros Hx. apply (first_argument_relay_call method (JArr [JStr x]) (JStr x) w eq_refl).
  simpl. destruct (String.eqb x "") eqn:E; [|reflexivity].
  apply String.eqb_eq in E. contradiction.
Qed.

(** X10.  The query scripts post to the root of the served function.  When
    that is the Cloud Function entry point, the request reaches
    [encrypt_credit_card] by the fallback branch (the path "/" names no
    route), and the script returns exactly what the Vault client's
    [encrypt] returns for the card number, leaving the Vault as [encrypt]
    does; for an empty card number it returns [None] and the Vault is not
    called. *)
Theorem script_encrypts_through_entry_point (requests_post : HttpPost World) s card_number w :
  answers_as requests_post CLOUD_FUNCTION_URL "/"
             (CloudFunction.vault_transform_bigquery vault_post vault_client) ->
  script_encrypt requests_post s card_number w
  = if String.eqb card_number "" then (Ok JNull, w)
    else encrypt vault_post vault_client card_number w.
Proof.
  intros Hserved.
  destruct (Hserved (script_payload s card_number) w) as (answer & status & w' & Htarget & Hpost).
  rewrite script_encrypt_reply_read, Hpost. cbn [fst snd].
  rewrite (vault_transform_bigquery_branch vault_post vault_client
             {| path := Some "/"; body := Some (script_payload s card_number);
                load_error := None |}
             (script_payload s card_number) w eq_refl) in Htarget.
  change (CloudFunction.encrypt_credit_card vault_post vault_client)
    with (handler vault_post vault_client Cloud Encode) in Htarget.
  cbv zeta in Htarget. unfold request_path in Htarget. cbn [path] in Htarget.
  change (str_contains "/encrypt" "/") with false in Htarget.
  change (str_contains "/decrypt" "/") with false in Htarget.
  change (str_contains "/health" "/") with false in Htarget.
  cbv iota in Htarget.
  rewrite handler_remote_function in Htarget.
  assert (Hrun : remote_function true (client_method vault_post vault_client Encode)
                   {| path := Some "/"; body := Some (script_payload s card_number);
                      load_error := None |} w
                 = (let (r, w1) := relay_call (client_method vault_post vault_client Encode)
                                              (JArr [JStr card_number]) w in
                    match r with
                    | Ok v => (Ok (replies_response [v]), w1)
                    | Raise _ => (Ok internal_error, w1)
                    end)).
  { rewrite (remote_function_calls true _
               {| path := Some "/"; body := Some (script_payload s card_number);
                  load_error := None |}
               [("requestId", JStr (script_request_id s));
                ("calls", JArr [JArr [JStr card_number]])]
               (JArr [JArr [JStr card_number]]) w eq_refl eq_refl).
    unfold try_except, bind, lift, ret. cbn [py_iter].
    rewrite relay_calls_one. unfold bind, ret.
    destruct (relay_call (client_method vault_post vault_client Encode)
                         (JArr [JStr card_number]) w) as [[v|e] w1]; reflexivity. }
  simpl silent_of in Htarget. rewrite Hrun in Htarget. clear Hrun.
  destruct (String.eqb card_number "") eqn:E.
  - apply String.eqb_eq in E. subst card_number.
    cbn in Htarget. inversion Htarget; subst. reflexivity.
  - apply String.eqb_neq in E. rewrite (string_call_relayed _ _ _ E) in Htarget.
    change (encrypt vault_post vault_client) with (client_method vault_post vault_client Encode).
    destruct (client_method_never_raises vault_post vault_client Encode card_number w)
      as (v & w1 & Hv).
    rewrite Hv in *. inversion Htarget; subst. reflexivity.
Qed.

Lemma wrapped_strings_relayed (method : string -> M World json) (f : string -> string) :
  (forall s w0, exists w1, method s w0 = (Ok (JStr (f s)), w1)) ->
  forall xs w,
    Forall (fun x => x <> EmptyString) xs ->
    exists w',
      relay_calls method (List.map (fun v => JArr [v]) (List.map JStr xs)) [] w
      = (Ok (List.map JStr (List.map f xs)), w').
Proof.
  intros Hm xs. induction xs as [|x xs IH]; intros w Hxs.
  - exists w. reflexivity.
  - inversion Hxs as [|? ? Hx Hrest]; subst.
    destruct (Hm x w) as (w1 & Hstep). destruct (IH w1 Hrest) as (w2 & Hrun).
    exists w2. simpl List.map. rewrite relay_calls_cons.
    erewrite bind_ok by (rewrite string_call_relayed by exact Hx; exact Hstep).
    rewrite relay_calls_acc. now rewrite (bind_ok _ _ _ _ _ Hrun).
Qed.

Lemma carried_value_returned op s w response w1 value :
  vault_post (transform_request vault_client op s) w = (Ok response, w1) ->
  carries (result_field op) value response ->
  client_method vault_post vault_client op s w = (Ok value, w1).
Proof.
  intros Hp (Hs & kvs & data & Hj & Hd & Hf).
  rewrite client_method_contract, Hp. cbn [fst snd].
  unfold contract_result. now rewrite Hs, Hj, Hd, Hf.
Qed.

(** X11.  The round trip of the Cloud Function test script, batch-wise:
    with a Vault whose decode undoes its encode, posting the payload of
    [test_encrypt_function] for the cards to [/encrypt] is answered 200
    with their encodings in order, and posting the payload of
    [test_decrypt_function] for those replies to [/decrypt] is answered 200
    with the cards themselves; provided no card and no encoding is the
    empty string, which the handlers answer with null. *)
Theorem batch_round_trip_through_entry_point (encode decode : string -> string) cards w :
  (forall s w0, exists response w1,
      vault_post (transform_request vault_client Encode s) w0 = (Ok response, w1)
      /\ carries "encoded_value" (JStr (encode s)) response) ->
  (forall s w0, exists response w1,
      vault_post (transform_request vault_client Decode s) w0 = (Ok response, w1)
      /\ carries "decoded_value" (JStr (decode s)) response) ->
  (forall s, decode (encode s) = s) ->
  Forall (fun x => x <> EmptyString) cards ->
  Forall (fun x => x <> EmptyString) (List.map encode cards) ->
  exists w1 w2,
    CloudFunction.vault_transform_bigquery vault_post vault_client
      {| path := Some "/encrypt";
         body := Some (TestCloudFunction.encrypt_payload (List.map JStr cards));
         load_error := None |} w
    = (Ok (replies_response (List.map JStr (List.map encode cards))), w1)
    /\ CloudFunction.vault_transform_bigquery vault_post vault_client
         {| path := Some "/decrypt";
            body := Some (TestCloudFunction.decrypt_payload
                            (List.map JStr (List.map encode cards)));
            load_error := None |} w1
       = (Ok (replies_response (List.map JStr cards)), w2).
Proof.
  intros Henc Hdec Hinv Hcards Hencs.
  assert (Hm1 : forall s w0, exists w1,
             client_method vault_post vault_client Encode s w0 = (Ok (JStr (encode s)), w1)).
  { intros s w0. destruct (Henc s w0) as (r & w1 & Hp & Hc).
    exists w1. eapply carried_value_returned; eassumption. }
  assert (Hm2 : forall s w0, exists w1,
             client_method vault_post vault_client Decode s w0 = (Ok (JStr (decode s)), w1)).
  { intros s w0. destruct (Hdec s w0) as (r & w1 & Hp & Hc).
    exists w1. eapply carried_value_returned; eassumption. }
  destruct (wrapped_strings_relayed _ encode Hm1 cards w Hcards) as (w1 & Hrun1).
  destruct (wrapped_strings_relayed _ decode Hm2 (List.map encode cards) w1 Hencs)
    as (w2 & Hrun2).
  exists w1, w2. split.
  - rewrite (vault_transform_bigquery_branch vault_post vault_client
               {| path := Some "/encrypt";
                  body := Some (TestCloudFunction.encrypt_payload (List.map JStr cards));
                  load_error := None |}
               (TestCloudFunction.encrypt_payload (List.map JStr cards)) w eq_refl).
    cbv zeta. unfold request_path. cbn [path].
    change (str_contains "/encrypt" "/encrypt") with true. cbv iota.
    change (CloudFunction.encrypt_credit_card vault_post vault_client)
      with (handler vault_post vault_client Cloud Encode).
    rewrite handler_remote_function.
    eapply remote_function_batch; [reflexivity|reflexivity|exact Hrun1].
  - rewrite (vault_transform_bigquery_branch vault_post vault_client
               {| path := Some "/decrypt";
                  body := Some (TestCloudFunction.decrypt_payload
                                  (List.map JStr (List.map encode cards)));
                  load_error := None |}
               (TestCloudFunction.decrypt_payload (List.map JStr (List.map encode cards)))
               w1 eq_refl).
    cbv zeta. unfold request_path. cbn [path].
    change (str_contains "/encrypt" "/decrypt") with false.
    change (str_contains "/decrypt" "/decrypt") with true. cbv iota.
    change (CloudFunction.decrypt_credit_card vault_post vault_client)
      with (handler vault_post vault_client Cloud Decode).
    rewrite handler_remote_function.
    replace (List.map JStr cards)
      with (List.map JStr (List.map decode (List.map encode cards))).
    + eapply remote_function_batch; [reflexivity|reflexivity|exact Hrun2].
    + f_equal. rewrite List.map_map. clear - Hinv.
      induction cards as [|c cs IH]; [reflexivity|]. simpl. now rewrite Hinv, IH.
Qed.

End Callers.

Lemma entry_point_never_raises {World : Type}
      (vault_post : VaultRequest -> M World Response)
      (vault_client : VaultTransformClient) request w :
  exists response w',
    CloudFunction.vault_transform_bigquery vault_post vault_client request w
    = (Ok response, w').
Proof.
  destruct (get_json_silent_cases request) as [(j & Hj) | (e & _ & _ & He)];
    [|rewrite (vault_transform_bigquery_load_error vault_post vault_client request e w He);
      eauto].
  rewrite (vault_transform_bigquery_branch vault_post vault_client request j w Hj).
  cbv zeta.
  change (CloudFunction.encrypt_credit_card vault_post vault_client)
    with (handler vault_post vault_client Cloud Encode).
  change (CloudFunction.decrypt_credit_card vault_post vault_client)
    with (handler vault_post vault_client Cloud Decode).
  destruct (handler_answers vault_post vault_client Cloud Encode request w)
    as (r1 & w1 & H1 & _).
  destruct (handler_answers vault_post vault_client Cloud Decode request w)
    as (r2 & w2 & H2 & _).
  destruct (str_contains "/encrypt" (request_path request)); [eauto|].
  destruct (str_contains "/decrypt" (request_path request)); [eauto|].
  destruct (str_contains "/health" (request_path request)); [|eauto].
  unfold CloudFunction.health_check, ret. eauto.
Qed.

Lemma served_answers_as {World : Type} (target : Request -> M World HttpResponse)
      (url path : string) :
  (forall request w, exists response w', target request w = (Ok response, w')) ->
  answers_as (served path target) url path target.
Proof.
  intros Htotal payload w.
  destruct (Htotal {| path := Some path; body := Some payload; load_error := None |} w)
    as ([answer status] & w' & H).
  exists answer, status, w'. split; [exact H|]. unfold served. now rewrite H.
Qed.

Lemma script_encrypts_through_entry_point_witness :
  script_encrypt
    (served "/" (CloudFunction.vault_transform_bigquery stub_post test_client))
    interactive_query "4111111111111111" []
  = if String.eqb "4111111111111111" "" then (Ok JNull, [])
    else encrypt stub_post test_client "4111111111111111" [].
Proof.
  apply (script_encrypts_through_entry_point stub_post test_client
           (served "/" (CloudFunction.vault_transform_bigquery stub_post test_client))
           interactive_query "4111111111111111" []).
  apply served_answers_as. intros request w. apply entry_point_never_raises.
Defined.

Lemma batch_round_trip_through_entry_point_witness :
  exists w1 w2,
    CloudFunction.vault_transform_bigquery stub_post test_client
      {| path := Some "/encrypt";
         body := Some (TestCloudFunction.encrypt_payload
                         (List.map JStr ["4111111111111111"; "5555555555554444"]));
         load_error := None |} []
    = (Ok (replies_response
             (List.map JStr (List.map ENC ["4111111111111111"; "5555555555554444"]))), w1)
    /\ CloudFunction.vault_transform_bigquery stub_post test_client
         {| path := Some "/decrypt";
            body := Some (TestCloudFunction.decrypt_payload
                            (List.map JStr
                               (List.map ENC ["4111111111111111"; "5555555555554444"])));
            load_error := None |} w1
       = (Ok (replies_response (List.map JStr ["4111111111111111"; "5555555555554444"])), w2).
Proof.
  apply (batch_round_trip_through_entry_point stub_post test_client ENC DEC
           ["4111111111111111"; "5555555555554444"] []).
  - intros s w0. eexists _, _. split; [reflexivity|].
    split; [reflexivity|]. eexists _, _. repeat split; reflexivity.
  - intros s w0. eexists _, _. split; [reflexivity|].
    split; [reflexivity|]. eexists _, _. repeat split; reflexivity.
  - exact DEC_ENC.
  - repeat constructor; discriminate.
  - repeat constructor; discriminate.
Defined.

(** ** What an answer tells *)

Section Answers.

Context {World : Type}.
Variable requests_post : VaultRequest -> M World Response.
Variable vault_client : VaultTransformClient.

(** X12.  Whatever the entries of a [calls] list are, a handler that
    answers it with replies answers with exactly one reply per call: a
    batch is never answered 200 with a shorter or longer list. *)
Theorem replies_never_miscounted d op request kvs calls w replies w' :
  body request = Some (JObj kvs) ->
  dict_lookup kvs "calls" = Some (JArr calls) ->
  handler requests_post vault_client d op request w
  = (Ok (JObj [("replies", JArr replies)], 200), w') ->
  List.length replies = List.length calls.
Proof.
  intros Hb Hc. rewrite handler_remote_function.
  rewrite (remote_function_calls _ _ _ _ _ _ Hb Hc).
  unfold try_except, bind, lift, ret. cbn [py_iter].
  destruct (relay_calls (client_method requests_post vault_client op) calls [] w)
    as [[rs|e] w1] eqn:E; intros H.
  - inversion H; subst. eapply relay_calls_length. eassumption.
  - discriminate.
Qed.

(** X13.  A request is rejected before the Vault is called: when a handler
    answers 400, the Vault is in the state it was in. *)
Theorem rejection_precedes_vault_calls d op request w w' :
  handler requests_post vault_client d op request w
  = (Ok (JObj [("error", JStr "Invalid request format")], 400), w') ->
  w' = w.
Proof.
  rewrite handler_remote_function.
  unfold remote_function, try_except, bind, lift, ret.
  destruct (get_json (silent_of d) request) as [j|e]; [|discriminate].
  destruct (negb (truthy j)); [intros H; now inversion H|].
  destruct (py_in "calls" j) as [present|e]; [|discriminate].
  destruct present; simpl; [|intros H; now inversion H].
  destruct (py_getitem_str j "calls") as [calls|e]; [|discriminate].
  destruct (py_iter calls) as [items|e]; [|discriminate].
  destruct (relay_calls (client_method requests_post vault_client op) items [] w)
    as [[rs|e] w1]; discriminate.
Qed.

End Answers.

Lemma replies_never_miscounted_witness :
  List.length [JStr "ENC(4111111111111111)"; JNull; JNull; JStr "ENC(4)"]
  = List.length mixed_calls.
Proof.
  apply (replies_never_miscounted flaky_post test_client Flask Encode mixed_request
           (envelope mixed_calls) mixed_calls []
           [JStr "ENC(4111111111111111)"; JNull; JNull; JStr "ENC(4)"]
           [transform_request test_client Encode "4111111111111111";
            transform_request test_client Encode "BAD";
            transform_request test_client Encode "4"]); reflexivity.
Defined.

Lemma rejection_precedes_vault_calls_witness :
  ([] : list VaultRequest) = [].
Proof.
  apply (rejection_precedes_vault_calls stub_post test_client Flask Encode
           (json_request (Some "/encrypt") (JObj [("invalid", JStr "data")])) [] []).
  reflexivity.
Defined.

(** ** The headers of a request *)

(** X1.  A client built from the environment sends, with the one request
    that [encrypt] or [decrypt] makes, the token of [VAULT_TOKEN] (never an
    empty one) as [X-Vault-Token] and [application/json] as
    [Content-Type]; it sends [X-Vault-Namespace] exactly when
    [VAULT_NAMESPACE] is set and not empty, and then with that value.  The
    request is the one the recorder around the Vault has seen. *)
Theorem loaded_client_headers {World : Type}
        (requests_post : VaultRequest -> M World Response)
        url_var (environ : gmap string string) self op s w log :
  VaultTransformClient_init url_var environ = Ok self ->
  exists token request v w',
    environ !! "VAULT_TOKEN" = Some token
    /\ token <> EmptyString
    /\ match op with
       | Encode => encrypt (logged requests_post) self s
       | Decode => decrypt (logged requests_post) self s
       end (w, log) = (Ok v, (w', log ++ [request]))
    /\ header "X-Vault-Token" (headers request) = Some token
    /\ header "Content-Type" (headers request) = Some "application/json"
    /\ header "X-Vault-Namespace" (headers request)
       = match environ !! "VAULT_NAMESPACE" with
         | Some ns => if String.eqb ns "" then None else Some ns
         | None => None
         end.
Proof.
  intros Hinit.
  pose proof (logged_client_method requests_post self op s w log) as Hrun.
  exists (vault_token self), (transform_request self op s).
  eexists _, _.
  assert (Hheaders : headers (transform_request self op s) = _get_headers self)
    by (destruct op; reflexivity).
  rewrite Hheaders. clear Hheaders.
  unfold VaultTransformClient_init in Hinit.
  destruct (environ !! "VAULT_TOKEN") as [token|]; [|discriminate].
  destruct (String.eqb token "") eqn:E; [discriminate|].
  inversion Hinit; subst; clear Hinit. cbn [vault_token] in *.
  split; [reflexivity|]. split; [intros ->; discriminate|].
  split; [destruct op; exact Hrun|].
  unfold _get_headers; simpl.
  destruct (environ !! "VAULT_NAMESPACE") as [ns|]; simpl; [|repeat split; reflexivity].
  destruct (String.eqb ns ""); repeat split; reflexivity.
Qed.

Lemma loaded_client_headers_witness :
  exists token request v w',
    test_environ !! "VAULT_TOKEN" = Some token
    /\ token <> EmptyString
    /\ encrypt (logged flaky_post) test_client "4111111111111111" ([], [])
       = (Ok v, (w', [] ++ [request]))
    /\ header "X-Vault-Token" (headers request) = Some token
    /\ header "Content-Type" (headers request) = Some "application/json"
    /\ header "X-Vault-Namespace" (headers request)
       = match test_environ !! "VAULT_NAMESPACE" with
         | Some ns => if String.eqb ns "" then None else Some ns
         | None => None
         end.
Proof.
  apply (loaded_client_headers flaky_post "VAULT_URL" test_environ test_client Encode
           "4111111111111111" [] []).
  reflexivity.
Defined.
